(** * py-ws7: the wavelength-meter source and its web front end

    A shallow embedding of [wlm.py] (class [WavelengthMeter] and the script
    part) and of [server.py] (the request and broadcast paths, the
    configuration and the start of the process), with the properties of the
    acquisition and fan-out pipeline proved over it.

    Conventions of the embedding:
    - a Python [float] is an exact rational ([Q]); rounding of binary
      floating point is not modelled;
    - a Python [int] is a [Z];
    - a method that reads the instrument or the [random] module is a
      computation in a state-and-exception monad;
    - the vendor DLL is an oracle: a record of functions from the history of
      driver calls to the value the driver returns. *)

From Stdlib Require Import NArith ZArith QArith List String Ascii Bool Lia Lqa.
Import ListNotations.

Set Implicit Arguments.

Local Open Scope Z_scope.

(** ** Python runtime: exceptions, results, the monad *)

Module Py.

Inductive exn : Type :=
| ValueError (msg : string)
| IndexError (msg : string)
| WebSocketClosedError.

Inductive Res (A : Type) : Type :=
| Ok (a : A)
| Raise (e : exn).
Arguments Ok {A} a.
Arguments Raise {A} e.

(** A computation over a store [S]: it ends with a value or with a raised
    exception, and with the store as it stands at that point. *)
Definition M (S A : Type) : Type := S -> Res A * S.

Definition ret {S A} (a : A) : M S A := fun s => (Ok a, s).

Definition raise {S A} (e : exn) : M S A := fun s => (Raise e, s).

Definition bind {S A B} (m : M S A) (k : A -> M S B) : M S B :=
  fun s =>
    match m s with
    | (Ok a, s') => k a s'
    | (Raise e, s') => (Raise e, s')
    end.

(** [try: m  except Exception: h] *)
Definition try_except {S A} (m : M S A) (h : exn -> M S A) : M S A :=
  fun s =>
    match m s with
    | (Ok a, s') => (Ok a, s')
    | (Raise e, s') => h e s'
    end.

(** [[f(x) for x in xs]], evaluated left to right. *)
Fixpoint mapM {S A B} (f : A -> M S B) (xs : list A) : M S (list B) :=
  match xs with
  | [] => ret []
  | x :: xs' =>
      bind (f x) (fun y => bind (mapM f xs') (fun ys => ret (y :: ys)))
  end.

(** [for x in xs: body(x)] *)
Fixpoint forM_ {S A} (xs : list A) (body : A -> M S unit) : M S unit :=
  match xs with
  | [] => ret tt
  | x :: xs' => bind (body x) (fun _ => forM_ xs' body)
  end.

(** [range(n)] *)
Definition range (n : nat) : list Z := map Z.of_nat (seq 0 n).

(** [l[i]] with Python's indexing: [-len(l) <= i < 0] counts from the
    end, anything outside [-len(l) .. len(l)-1] raises [IndexError]. *)
Definition index {A} (l : list A) (i : Z) : Res A :=
  let n := Z.of_nat (List.length l) in
  let j := if i <? 0 then i + n else i in
  if (0 <=? j) && (j <? n) then
    match nth_error l (Z.to_nat j) with
    | Some a => Ok a
    | None => Raise (IndexError "list index out of range")
    end
  else Raise (IndexError "list index out of range").

(** [l.remove(x)]: drops the first occurrence, [None] when there is none
    (where Python raises [ValueError]). *)
Fixpoint remove_first {A} (eqb : A -> A -> bool) (x : A) (l : list A)
  : option (list A) :=
  match l with
  | [] => None
  | y :: l' =>
      if eqb y x then Some l'
      else match remove_first eqb x l' with
           | Some r => Some (y :: r)
           | None => None
           end
  end.

(** The numbers the meter hands out: [0] is an [int], readings are
    [float]s. *)
Inductive num : Type :=
| PyInt (z : Z)
| PyFloat (q : Q).

(** [float(x)] *)
Definition to_float (x : num) : Q :=
  match x with
  | PyInt z => inject_Z z
  | PyFloat q => q
  end.

End Py.

Export Py.

Declare Scope py_scope.
Delimit Scope py_scope with py.
Notation "x <- m ;; k" := (bind m (fun x => k))
  (at level 61, m at next level, right associativity) : py_scope.
Notation "m ;;; k" := (bind m (fun _ => k))
  (at level 61, right associativity) : py_scope.
Open Scope py_scope.

(** ** Text: [str], ["%.8f" % x] and [json.dumps] of a list of numbers *)

Module Text.

Definition digit (d : N) : ascii := ascii_of_N (48 + d).


(** Decimal digits of [n], most significant first, pushed in front of
    [acc]; [fuel] bounds the number of digits. *)
Fixpoint digits_aux (fuel : nat) (n : N) (acc : string) : string :=
  match fuel with
  | O => acc
  | S fuel' =>
      let acc' := String (digit (n mod 10)) acc in
      if (n / 10 =? 0)%N then acc' else digits_aux fuel' (n / 10) acc'
  end.

(** [str(n)] for [n >= 0]. *)
Definition str_nat (n : N) : string :=
  digits_aux (S (N.to_nat (N.size n))) n EmptyString.

(** [str(z)] *)
Definition str_int (z : Z) : string :=
  if z <? 0 then String "-" (str_nat (Z.abs_N z)) else str_nat (Z.abs_N z).

(** The [k] low decimal digits of [n], zero padded, in front of [acc]. *)
Fixpoint fixed_digits (k : nat) (n : N) (acc : string) : string :=
  match k with
  | O => acc
  | S k' => fixed_digits k' (n / 10) (String (digit (n mod 10)) acc)
  end.

(** Nearest integer, ties to even. *)
Definition round_half_even (q : Q) : Z :=
  let d := Zpos (Qden q) in
  let fl := Qnum q / d in
  let r := Qnum q mod d in
  if 2 * r <? d then fl
  else if d <? 2 * r then fl + 1
  else if Z.even fl then fl else fl + 1.

(** ["%.<prec>f" % q]: the value rounded to [prec] decimals, the sign of
    [q] kept even when the rounded digits are all zero. *)
Definition format_f (prec : nat) (q : Q) : string :=
  let p := (10 ^ N.of_nat prec)%N in
  let m := Z.abs_N (round_half_even (q * inject_Z (Z.of_N p))) in
  let sign : string := if Qnum q <? 0 then "-"%string else EmptyString in
  (sign ++ str_nat (m / p) ++ "."
        ++ fixed_digits prec (m mod p) EmptyString)%string.

(** ["%.8f" % x] *)
Definition format_f8 (x : num) : string := format_f 8 (to_float x).

Fixpoint join (sep : string) (l : list string) : string :=
  match l with
  | [] => EmptyString
  | [s] => s
  | s :: l' => (s ++ sep ++ join sep l')%string
  end.

Section Json.
(** [float.__repr__], the shortest decimal text that reads back as the
    same float: outside the embedding, taken as given. *)
Variable float_repr : Q -> string.

Definition num_repr (x : num) : string :=
  match x with
  | PyInt z => str_int z
  | PyFloat q => float_repr q
  end.

(** [json.dumps(data)] for a list of numbers. *)
Definition json_dumps (data : list num) : string :=
  ("[" ++ join ", " (map num_repr data) ++ "]")%string.
End Json.

End Text.

(** ** wlm.py *)

Module Wlm.

(** [ctypes.c_long(z)] on Windows: 32 bits, two's complement. *)
Definition c_long (z : Z) : Z := (z + 2 ^ 31) mod 2 ^ 32 - 2 ^ 31.

Inductive ctype : Type := c_ushort | c_ulong | c_double.


(** A call into the DLL, as it is logged. *)
Inductive DllCall : Type :=
| CallGetWavelengthNum (channel : Z) (arg : Q)
| CallGetFrequencyNum (channel : Z) (arg : Q)
| CallGetSwitcherMode (arg : Z)
| CallSetSwitcherMode (mode : Z)
| CallGetPatternItemCount (index : Z)
| CallGetPatternItemSize (index : Z)
| CallSetPattern (index : Z) (enable : Z)
| CallGetPatternDataNum (channel index : Z) (t : ctype) (len : nat).

(** What the driver leaves behind after [GetPatternDataNum]: its result
    code and the cells of the caller's array, read as integers or as
    doubles. *)
Record PatternFill : Type := {
  fill_result : Z;
  fill_word : nat -> Z;
  fill_double : nat -> Q
}.

(** The vendor DLL.  Each entry maps the calls made so far (most recent
    first) and the arguments to what the driver returns. *)
Record Driver : Type := {
  GetWavelengthNum : list DllCall -> Z -> Q -> Q;
  GetFrequencyNum : list DllCall -> Z -> Q -> Q;
  GetSwitcherMode : list DllCall -> Z -> Z;
  GetPatternItemCount : list DllCall -> Z -> Z;
  GetPatternItemSize : list DllCall -> Z -> Z;
  GetPatternDataNum : list DllCall -> Z -> Z -> ctype -> nat -> PatternFill
}.

(** The state the meter's methods act on: the generator of the [random]
    module (the stream its seed fixes, and how far it has been consumed)
    and the log of driver calls. *)
Record Instr : Type := {
  rng_stream : nat -> N;
  rng_pos : nat;
  dll_log : list DllCall
}.

(** The generator after one more draw. *)
Definition consume (s : Instr) : Instr :=
  {| rng_stream := rng_stream s;
     rng_pos := S (rng_pos s);
     dll_log := dll_log s |}.

Definition draw : M Instr N :=
  fun s => (Ok (rng_stream s (rng_pos s)), consume s).

(** 53 random bits scaled into [[0, 1)]. *)
Definition unit_of_bits (k : N) : Q := Z.of_N (k mod 2 ^ 53) # (2 ^ 53).

(** [random.random()] *)
Definition random_random : M Instr Q :=
  k <- draw ;;
  ret (unit_of_bits k).

(** [random.uniform(a, b)] is [a + (b - a) * random()]. *)
Definition random_uniform (a b : Q) : M Instr Q :=
  r <- random_random ;;
  ret (a + (b - a) * r)%Q.

(** [random.randint(a, b)]: [a] plus a draw below [b - a + 1]. *)
Definition random_randint (a b : Z) : M Instr Z :=
  k <- draw ;;
  ret (a + Z.of_N k mod (b - a + 1)).

(** The state after the driver call [c]. *)
Definition after_call (c : DllCall) (s : Instr) : Instr :=
  {| rng_stream := rng_stream s;
     rng_pos := rng_pos s;
     dll_log := c :: dll_log s |}.

(** Enters the DLL: the call is logged, and the driver answers from the
    calls made before it. *)
Definition logged (c : DllCall) : M Instr (list DllCall) :=
  fun s => (Ok (dll_log s), after_call c s).

Definition of_res {A} (r : Res A) : M Instr A := fun s => (r, s).

(** [(ctype * count)()]: ctypes refuses a negative length. *)
Definition new_array (t : ctype) (count : Z) : Res nat :=
  if count <? 0 then Raise (ValueError "Array length must be >= 0")
  else Ok (Z.to_nat count).

(** [list(p_array)] once the driver has written the array. *)
Definition read_array (t : ctype) (len : nat) (f : PatternFill) : list num :=
  map (fun i =>
         match t with
         | c_ushort => PyInt (fill_word f i mod 2 ^ 16)
         | c_ulong => PyInt (fill_word f i mod 2 ^ 32)
         | c_double => PyFloat (fill_double f i)
         end) (seq 0 len).

Record WavelengthMeter : Type := {
  debug : bool;
  dll : Driver
}.

(** The table of the simulated meter. *)
Definition base_table : list num :=
  [ PyFloat 460.8618; PyFloat 689.2643; PyFloat 679.2888; PyFloat 707.2016;
    PyFloat (460.8618 * 2); PyInt 0; PyInt 0; PyInt 0 ].

Section Methods.
Variable self : WavelengthMeter.

Definition GetWavelength (channel : Z) : M Instr num :=
  if negb (debug self) then
    h <- logged (CallGetWavelengthNum (c_long channel) 0) ;;
    ret (PyFloat (GetWavelengthNum (dll self) h (c_long channel) 0))
  else
    let wavelengths := base_table in
    if channel >? 5 then ret (PyInt 0)
    else
      b <- of_res (index wavelengths (channel - 1)) ;;
      u <- random_uniform 0 0.0001 ;;
      ret (PyFloat (to_float b + inject_Z channel * u)).

Definition GetFrequency (channel : Z) : M Instr num :=
  if negb (debug self) then
    h <- logged (CallGetFrequencyNum (c_long channel) 0) ;;
    ret (PyFloat (GetFrequencyNum (dll self) h (c_long channel) 0))
  else ret (PyInt 38434900).

Definition GetPatternData (channel index : Z) : M Instr (Z * list num) :=
  if negb (debug self) then
    h1 <- logged (CallGetPatternItemCount (c_long index)) ;;
    let item_count := GetPatternItemCount (dll self) h1 (c_long index) in
    h2 <- logged (CallGetPatternItemSize (c_long index)) ;;
    let item_size := GetPatternItemSize (dll self) h2 (c_long index) in
    if (item_count =? 0) || (item_size =? 0) then ret (0, [])
    else
      t <- (if item_size =? 2 then ret c_ushort
            else if item_size =? 4 then ret c_ulong
            else if item_size =? 8 then ret c_double
            else raise (ValueError
              "Unsupported item size returned from GetPatternItemSize.")) ;;
      len <- of_res (new_array t item_count) ;;
      logged (CallSetPattern (c_long index) (c_long 0)) ;;;
      h <- logged (CallGetPatternDataNum (c_long channel) (c_long index)
                                         t len) ;;
      let f := GetPatternDataNum (dll self) h (c_long channel) (c_long index)
                 t len in
      ret (fill_result f, read_array t len f)
  else
    l <- mapM (fun _ => k <- random_randint 0 1000 ;; ret (PyInt k))
              (range 10) ;;
    ret (0, l).

(** The [wavelengths] property. *)
Definition wavelengths : M Instr (list num) :=
  mapM (fun i => GetWavelength (i + 1)) (range 8).

(** The [wavelength] and [frequency] properties. *)
Definition wavelength : M Instr num := GetWavelength 1.
Definition frequency : M Instr num := GetFrequency 1.

(** The [pattern] property. *)
Definition pattern : M Instr (Z * list num) := GetPatternData 1 1.

(** The [switcher_mode] property. *)
Definition switcher_mode : M Instr Z :=
  if negb (debug self) then
    h <- logged (CallGetSwitcherMode (c_long 0)) ;;
    ret (GetSwitcherMode (dll self) h (c_long 0))
  else ret 0.

(** The setter of [switcher_mode]. *)
Definition set_switcher_mode (mode : Z) : M Instr unit :=
  if negb (debug self) then
    logged (CallSetSwitcherMode (c_long mode)) ;;; ret tt
  else ret tt.
End Methods.

End Wlm.

(** ** server.py *)

Module Server.
Import Wlm Text.

(** A request or connection handler object, known by its identity. *)
Definition Handler : Type := nat.

(** The state of the server process.  [clients] is the module-level list
    of connected browsers; [closing] holds the handlers whose web-socket
    connection is closed or closing, on which [write_message] raises;
    [sent] is every frame written to a connection, oldest first. *)
Record World : Type := {
  instr : Instr;
  clients : list Handler;
  closing : list Handler;
  sent : list (Handler * string);
  stdout : list string;
  app_log : list exn
}.

Definition with_instr (i : Instr) (w : World) : World :=
  {| instr := i; clients := clients w; closing := closing w;
     sent := sent w; stdout := stdout w; app_log := app_log w |}.

Definition with_clients (l : list Handler) (w : World) : World :=
  {| instr := instr w; clients := l; closing := closing w;
     sent := sent w; stdout := stdout w; app_log := app_log w |}.

Definition with_sent (l : list (Handler * string)) (w : World) : World :=
  {| instr := instr w; clients := clients w; closing := closing w;
     sent := l; stdout := stdout w; app_log := app_log w |}.

Definition with_stdout (l : list string) (w : World) : World :=
  {| instr := instr w; clients := clients w; closing := closing w;
     sent := sent w; stdout := l; app_log := app_log w |}.

Definition with_app_log (l : list exn) (w : World) : World :=
  {| instr := instr w; clients := clients w; closing := closing w;
     sent := sent w; stdout := stdout w; app_log := l |}.

(** A method of the meter, run on the process' instrument state. *)
Definition on_instr {A} (m : M Instr A) : M World A :=
  fun w => let (r, i) := m (instr w) in (r, with_instr i w).

Definition is_closing (c : Handler) (w : World) : bool :=
  existsb (Nat.eqb c) (closing w).

(** [c.write_message(msg)]: tornado raises [WebSocketClosedError] on a
    connection that is closed or closing, and queues the frame
    otherwise. *)
Definition write_message (c : Handler) (msg : string) : M World unit :=
  fun w =>
    if is_closing c w then (Raise WebSocketClosedError, w)
    else (Ok tt, with_sent (sent w ++ [(c, msg)]) w).

Definition print (line : string) : M World unit :=
  fun w => (Ok tt, with_stdout (stdout w ++ [line]) w).

(** What a request handler has written so far. *)
Inductive value : Type :=
| VNum (x : num)
| VStr (s : string)
| VList (l : list num).

Inductive Chunk : Type :=
| ChunkText (s : string)
| ChunkJson (d : list (string * value)).

Record Response : Type := {
  status : Z;
  body : list Chunk
}.

Definition fresh_response : Response := {| status := 200; body := [] |}.

Definition set_status (code : Z) (r : Response) : Response :=
  {| status := code; body := body r |}.

Definition write (c : Chunk) (r : Response) : Response :=
  {| status := status r; body := body r ++ [c] |}.

Section App.
Variable float_repr : Q -> string.
Variable wlmeter : WavelengthMeter.

Definition send_data : M World unit :=
  fun w =>
    if (0 <? Z.of_nat (List.length (clients w))) then
      (data <- on_instr (wavelengths wlmeter) ;;
       forM_ (clients w)
             (fun c => write_message c (json_dumps float_repr data))) w
    else (Ok tt, w).

(** [WsHandler.open] *)
Definition WsHandler_open (self : Handler) : M World unit :=
  fun w => (Ok tt, with_clients (clients w ++ [self]) w).

(** [WsHandler.on_close] *)
Definition WsHandler_on_close (self : Handler) : M World unit :=
  (fun w =>
     match remove_first Nat.eqb self (clients w) with
     | Some l => (Ok tt, with_clients l w)
     | None => (Raise (ValueError "list.remove(x): x not in list"), w)
     end) ;;;
  print "connection closed".

(** [ApiHandler.get].  [channel] is [None] on the route without a
    channel; otherwise it carries [int(channel)], the number the text
    captured by the route stands for. *)
Definition ApiHandler_get (channel : option Z) : M World Response :=
  w <- on_instr (wavelengths wlmeter) ;;
  sw <- on_instr (switcher_mode wlmeter) ;;
  match channel with
  | None =>
      ret (write (ChunkJson [ ("wavelengths"%string, VList w);
                              ("switcher_mode"%string, VNum (PyInt sw)) ])
                 fresh_response)
  | Some ch =>
      if (ch >=? 0) && (ch <? Z.of_nat (List.length w)) then
        x <- (fun s => (index w ch, s)) ;;
        ret (write (ChunkText (format_f8 x)) fresh_response)
      else
        ret (write (ChunkJson [ ("error"%string, VStr "Wrong channel") ])
                   (set_status 400 fresh_response))
  end.

(** One firing of tornado's [PeriodicCallback(send_data, ...)]: the
    runner calls the callback and, when it raises, logs the exception
    and goes on to schedule the next firing. *)
Definition PeriodicCallback_run : M World unit :=
  try_except send_data
             (fun e w => (Ok tt, with_app_log (app_log w ++ [e]) w)).
End App.

End Server.

(** * Vocabulary of the statements *)

Module Vocab.
Import Wlm Text.

(** The value the next [random.uniform(a, b)] returns in state [s]. *)
Definition next_uniform (a b : Q) (s : Instr) : Q :=
  (a + (b - a) * unit_of_bits (rng_stream s (rng_pos s)))%Q.








(** Every handler of [l] has a connection that accepts frames. *)
Definition all_open (l : list Server.Handler) (w : Server.World) : Prop :=
  forall c, In c l -> Server.is_closing c w = false.










(** The driver calls of one read of the eight channels, most recent
    first. *)
Definition poll_calls : list DllCall :=
  rev (map (fun i => CallGetWavelengthNum (c_long (i + 1)) 0) (range 8)).

(** What one evaluation of the [wavelengths] property leaves in the
    instrument state: eight driver calls on the hardware, five draws in
    the simulation. *)
Definition one_poll (self : WavelengthMeter) (s s' : Instr) : Prop :=
  rng_stream s' = rng_stream s /\
  if debug self
  then rng_pos s' = (5 + rng_pos s)%nat /\ dll_log s' = dll_log s
  else rng_pos s' = rng_pos s /\ dll_log s' = poll_calls ++ dll_log s.

(** One frame carrying [payload] for each handler of [l], in order. *)
Definition frames (payload : string) (l : list Server.Handler)
  : list (Server.Handler * string) :=
  map (fun c => (c, payload)) l.
End Vocab.

(** * Concrete meters and process states *)

Module Examples.
Import Wlm Text Server.

(** A driver with nothing to report. *)
Definition idle_driver : Driver :=
  {| GetWavelengthNum := fun _ _ _ => 0%Q;
     GetFrequencyNum := fun _ _ _ => 0%Q;
     GetSwitcherMode := fun _ _ => 0;
     GetPatternItemCount := fun _ _ => 0;
     GetPatternItemSize := fun _ _ => 0;
     GetPatternDataNum := fun _ _ _ _ _ =>
       {| fill_result := 0; fill_word := fun _ => 0;
          fill_double := fun _ => 0%Q |} |}.

(** A driver with a laser on every channel, a pattern of four 16-bit
    items and the switcher in mode 1. *)
Definition lab_driver : Driver :=
  {| GetWavelengthNum := fun _ ch _ => (780.2412 + inject_Z ch)%Q;
     GetFrequencyNum := fun _ _ _ => 384.2305%Q;
     GetSwitcherMode := fun _ _ => 1;
     GetPatternItemCount := fun _ _ => 4;
     GetPatternItemSize := fun _ _ => 2;
     GetPatternDataNum := fun _ _ _ _ _ =>
       {| fill_result := 1; fill_word := fun i => 1000 * Z.of_nat i + 7;
          fill_double := fun _ => 0%Q |} |}.



Definition sim : WavelengthMeter := {| debug := true; dll := idle_driver |}.
Definition hw : WavelengthMeter := {| debug := false; dll := lab_driver |}.

(** A generator whose draws are neither all small nor all equal. *)
Definition instr0 : Instr :=
  {| rng_stream :=
       fun n => (N.of_nat n * 1234567890123457 + 4503599627370496)%N;
     rng_pos := 0;
     dll_log := [] |}.

(** A stand-in for [float.__repr__]: four decimals. *)
Definition repr4 (q : Q) : string := format_f 4 q.

(** Nobody connected. *)
Definition world_empty : World :=
  {| instr := instr0; clients := []; closing := []; sent := [];
     stdout := []; app_log := [] |}.

(** Three browsers connected, all connections open. *)
Definition world_three : World :=
  {| instr := instr0; clients := [1; 2; 3]%nat; closing := []; sent := [];
     stdout := []; app_log := [] |}.

(** Three browsers registered, the connection of the second one closing. *)
Definition world_second_closing : World :=
  {| instr := instr0; clients := [1; 2; 3]%nat; closing := [2%nat];
     sent := []; stdout := []; app_log := [] |}.
End Examples.

(** * The rest of the two files *)

(** ** Python values and dicts *)

Module Dict.

Unset Elimination Schemes.
Inductive pyvalue : Type :=
| PNone
| PBool (b : bool)
| PNum (x : num)
| PStr (s : string)
| PList (l : list pyvalue)
| PDict (d : list (string * pyvalue)).
Set Elimination Schemes.

(** A [dict] in insertion order.  The last binding of a key is the one
    that counts; the operations below never leave more than one. *)
Definition dict : Type := list (string * pyvalue).

(** [d.get(k)] *)
Fixpoint dict_get (k : string) (d : dict) : option pyvalue :=
  match d with
  | [] => None
  | (k', v) :: r =>
      match dict_get k r with
      | Some v' => Some v'
      | None => if String.eqb k' k then Some v else None
      end
  end.

(** [k in d] *)
Definition dict_mem (k : string) (d : dict) : bool :=
  match dict_get k d with Some _ => true | None => false end.

(** [d[k] = v]: a key that is there keeps its place, a new one goes last. *)
Definition dict_set (k : string) (v : pyvalue) (d : dict) : dict :=
  if dict_mem k d then
    map (fun kv => if String.eqb (fst kv) k then (fst kv, v) else kv) d
  else d ++ [(k, v)].

(** [d.update(e)] *)
Definition dict_update (d e : dict) : dict :=
  fold_left (fun acc kv => dict_set (fst kv) (snd kv) acc) e d.

(** [bool(v)], as [if not v] tests it. *)
Definition truthy (v : pyvalue) : bool :=
  match v with
  | PNone => false
  | PBool b => b
  | PNum (PyInt z) => negb (z =? 0)
  | PNum (PyFloat q) => negb (Qeq_bool q 0)
  | PStr s => negb (String.eqb s EmptyString)
  | PList l => match l with [] => false | _ => true end
  | PDict d => match d with [] => false | _ => true end
  end.

End Dict.

(** ** server.py: configuration and start-up *)

Module Config.
Import Wlm Text Dict.

(** What [parser.parse_args()] returns: whether [--debug] was given (the
    attribute is [True] then and [None] otherwise), the path of the
    configuration file, and the port when one was given. *)
Record Args : Type := {
  args_debug : bool;
  args_config : string;
  args_port : option Z
}.

(** Why the start of the process ends before it serves. *)
Inductive failure : Type :=
| ConfigNotLoaded (path : string)
| KeyError (key : string)
| DllNotLoaded (path : string).

Inductive Started (A : Type) : Type :=
| Up (a : A)
| Aborted (f : failure).
Arguments Up {A} a.
Arguments Aborted {A} f.

(** The dict [get_config] starts from. *)
Definition default_config : dict :=
  [ ("port"%string, PNum (PyInt 8000));
    ("root"%string, PStr "/");
    ("precision"%string, PNum (PyInt 5));
    ("update_rate"%string, PNum (PyFloat 0.1));
    ("debug"%string, PBool false);
    ("channels"%string,
     PList (map (fun i =>
                   PDict [ ("i"%string, PNum (PyInt i));
                           ("label"%string,
                            PStr ("Channel " ++ str_int (i + 1))) ])
                (range 8))) ].

(** [vars(args)] *)
Definition vars (debug port : pyvalue) (path : string) : dict :=
  [ ("debug"%string, debug);
    ("config"%string, PStr path);
    ("port"%string, port) ].

Section GetConfig.
(** The dict whose items [config.update(json.loads(f.read()))] takes from
    the file at [path], or [None] when opening, reading, parsing or
    updating raises. *)
Variable read_json : string -> option dict.

Definition get_config (args : Args) : Started dict :=
  let config := default_config in
  match read_json (args_config args) with
  | None => Aborted (ConfigNotLoaded (args_config args))
  | Some file =>
      let config := dict_update config file in
      let debug := if args_debug args then PBool true else PNone in
      match args_port args with
      | None =>
          match dict_get "port" config with
          | None => Aborted (KeyError "port")
          | Some port =>
              Up (dict_update config (vars debug port (args_config args)))
          end
      | Some p =>
          Up (dict_update config
                (vars debug (PNum (PyInt p)) (args_config args)))
      end
  end.

(** [ctypes.WinDLL(path)]: the loaded driver, or [None] when loading
    raises. *)
Variable load_dll : string -> option Driver.

(** What the [dll] field stands for on a meter that never set it. *)
Variable no_dll : Driver.

Definition default_dllpath : string := "C:\Windows\System32\wlmData.dll".

(** [WavelengthMeter(dllpath, debug)] *)
Definition WavelengthMeter_init (dllpath : string) (debug : pyvalue)
  : Started WavelengthMeter :=
  if negb (truthy debug) then
    match load_dll dllpath with
    | Some d => Up {| Wlm.debug := truthy debug; dll := d |}
    | None => Aborted (DllNotLoaded dllpath)
    end
  else Up {| Wlm.debug := truthy debug; dll := no_dll |}.

(** The head of [__main__]: the configuration, then the meter built from
    [config["debug"]]. *)
Definition startup (args : Args) : Started (dict * WavelengthMeter) :=
  match get_config args with
  | Aborted f => Aborted f
  | Up config =>
      match dict_get "debug" config with
      | None => Aborted (KeyError "debug")
      | Some debug =>
          match WavelengthMeter_init default_dllpath debug with
          | Aborted f => Aborted f
          | Up wlmeter => Up (config, wlmeter)
          end
      end
  end.
End GetConfig.

End Config.

(** ** wlm.py run as a script *)

Module Script.
Import Wlm Text.

(** The instrument and what has been printed. *)
Record Console : Type := {
  con_instr : Instr;
  con_out : list string
}.

Definition on_meter {A} (m : M Instr A) : M Console A :=
  fun c =>
    let (r, i) := m (con_instr c) in
    (r, {| con_instr := i; con_out := con_out c |}).

Definition echo (line : string) : M Console unit :=
  fun c => (Ok tt, {| con_instr := con_instr c;
                      con_out := con_out c ++ [line] |}).

Definition tab : ascii := ascii_of_nat 9.

(** ["Wavelength at channel %d:\t%.4f nm" % (i, x)] *)
Definition channel_line (i : Z) (x : num) : string :=
  ("Wavelength at channel " ++ str_int i ++ ":" ++ String tab EmptyString
     ++ format_f 4 (to_float x) ++ " nm")%string.

(** [l[start:stop:step]] for a start and a stop that are not negative and
    a positive step. *)
Definition slice {A} (l : list A) (start stop step : nat) : list A :=
  map snd
      (filter (fun ix =>
                 Nat.leb start (fst ix) && Nat.ltb (fst ix) stop
                 && Nat.eqb ((fst ix - start) mod step) 0)
              (combine (seq 0 (List.length l)) l)).

Section Main.
Variable float_repr : Q -> string.
Variable wlm : WavelengthMeter.

(** [str(l)] for a list of numbers. *)
Definition list_str (l : list num) : string :=
  ("[" ++ join ", " (map (num_repr float_repr) l) ++ "]")%string.

(** The body of [__main__] after the meter is built, for the channel
    arguments [channels]. *)
Definition main (channels : list Z) : M Console unit :=
  forM_ channels
        (fun i =>
           w <- on_meter (wavelengths wlm) ;;
           x <- (fun c => (index w i, c)) ;;
           echo (channel_line i x)) ;;;
  w <- on_meter (wavelengths wlm) ;;
  echo (list_str (slice w 1 6 2)).

(** [range(1, 8)], the default of the [channels] argument. *)
Definition default_channels : list Z := map (fun i => i + 1) (range 7).
End Main.

End Script.

(** ** More vocabulary *)

Module Terms.
Import Wlm Text Server Vocab.

(** What [n] evaluations of the [wavelengths] property leave in the
    instrument state. *)
Fixpoint polls_log (n : nat) : list DllCall :=
  match n with
  | O => []
  | S n' => poll_calls ++ polls_log n'
  end.

Definition polled (self : WavelengthMeter) (n : nat) (s s' : Instr) : Prop :=
  rng_stream s' = rng_stream s /\
  if debug self
  then rng_pos s' = (5 * n + rng_pos s)%nat /\ dll_log s' = dll_log s
  else rng_pos s' = rng_pos s /\ dll_log s' = polls_log n ++ dll_log s.

(** The same meter with another driver behind it. *)
Definition with_dll (d : Driver) (self : WavelengthMeter) : WavelengthMeter :=
  {| debug := debug self; dll := d |}.



(** [x] is what [GetWavelength(channel)] returns in some state of the
    instrument. *)
Definition reading_of (self : WavelengthMeter) (channel : Z) (x : num)
  : Prop :=
  exists s, fst (GetWavelength self channel s) = Ok x.

(** The line of the script for the argument [i]: its label is [i], its
    value a reading of the 1-based channel [i mod 8 + 1]. *)
Definition shows (self : WavelengthMeter) (i : Z) (line : string) : Prop :=
  exists x,
    reading_of self (i mod 8 + 1) x /\ line = Script.channel_line i x.

(** [n] firings of the timer, one after the other. *)
Fixpoint ticks (float_repr : Q -> string) (wlmeter : WavelengthMeter)
         (n : nat) : M World unit :=
  match n with
  | O => ret tt
  | S n' =>
      PeriodicCallback_run float_repr wlmeter ;;; ticks float_repr wlmeter n'
  end.

(** How many of the frames [l] went to the handler [c]. *)
Definition frames_to (c : Handler) (l : list (Handler * string)) : nat :=
  List.length (filter (fun f => Nat.eqb (fst f) c) l).

(** The registry part of the process state and its output streams. *)
Definition same_registry (w w' : World) : Prop :=
  clients w' = clients w /\ closing w' = closing w /\
  stdout w' = stdout w /\ app_log w' = app_log w.
End Terms.

(** ** More concrete inputs *)

Module Samples.
Import Wlm Text Dict Config Script.

(** A configuration file that moves the port and asks for the simulated
    meter. *)
Definition file_debug_9000 : dict :=
  [ ("port"%string, PNum (PyInt 9000));
    ("debug"%string, PBool true);
    ("precision"%string, PNum (PyInt 7)) ].

(** The configuration file is there, whatever path is asked for. *)
Definition read_debug_9000 (path : string) : option dict :=
  Some file_debug_9000.


Definition load_lab (path : string) : option Driver :=
  Some Examples.lab_driver.

Definition load_fails (path : string) : option Driver := None.

Definition args_plain : Args :=
  {| args_debug := false; args_config := "config.json"; args_port := None |}.

Definition args_debug_8080 : Args :=
  {| args_debug := true; args_config := "config.json";
     args_port := Some 8080 |}.

Definition console0 : Console :=
  {| con_instr := Examples.instr0; con_out := [] |}.
End Samples.

(** * Properties *)

Unset Implicit Arguments.

(** ** The monad *)

Section MonadFacts.
Context {S A B : Type}.

Lemma bind_ok (m : M S A) (k : A -> M S B) {s a s'} :
  m s = (Ok a, s') -> bind m k s = k a s'.
Proof. unfold bind; intros ->; reflexivity. Qed.

Lemma bind_raise (m : M S A) (k : A -> M S B) {s e s'} :
  m s = (Raise e, s') -> bind m k s = (Raise e, s').
Proof. unfold bind; intros ->; reflexivity. Qed.
End MonadFacts.

Section ComprehensionFacts.
Context {S A B : Type}.

(** A comprehension over a list on which [f] never raises yields one
    element per element of the list. *)
Lemma mapM_total (f : A -> M S B) (xs : list A) :
  (forall x, In x xs -> forall s, exists y s', f x s = (Ok y, s')) ->
  forall s, exists ys s',
    mapM f xs s = (Ok ys, s') /\ List.length ys = List.length xs.
Proof.
  induction xs as [|x xs IH]; intros Hf s.
  - exists [], s; split; reflexivity.
  - destruct (Hf x (or_introl eq_refl) s) as (y & s1 & Hy).
    destruct (IH (fun z Hz => Hf z (or_intror Hz)) s1)
      as (ys & s2 & Hys & Hlen).
    exists (y :: ys), s2; split.
    + cbn [mapM]. rewrite (bind_ok _ _ Hy), (bind_ok _ _ Hys). reflexivity.
    + cbn [List.length]; congruence.
Qed.


(** Element [i] of a comprehension is [f] of element [i] of the list, run
    in the state the first [i] evaluations leave. *)
Lemma mapM_nth_error (f : A -> M S B) (xs : list A) :
  forall s ys s' i x,
    mapM f xs s = (Ok ys, s') ->
    nth_error xs i = Some x ->
    exists y,
      nth_error ys i = Some y /\
      fst (f x (snd (mapM f (firstn i xs) s))) = Ok y.
Proof.
  induction xs as [|x0 xs IH]; intros s ys s' i x Hrun Hnth.
  - destruct i; discriminate.
  - cbn [mapM] in Hrun. unfold bind at 1 in Hrun.
    destruct (f x0 s) as [[y0|e] s1] eqn:Hy0; [|discriminate].
    unfold bind at 1 in Hrun.
    destruct (mapM f xs s1) as [[ys1|e] s2] eqn:Hys1; [|discriminate].
    injection Hrun as <- <-.
    destruct i as [|i].
    + injection Hnth as <-. exists y0; split; [reflexivity|].
      cbn. rewrite Hy0. reflexivity.
    + cbn [nth_error] in Hnth.
      destruct (IH s1 ys1 s2 i x Hys1 Hnth) as (y & Hy & Hfy).
      exists y; split; [exact Hy|].
      cbn [firstn mapM]. rewrite (bind_ok _ _ Hy0).
      unfold bind.
      destruct (mapM f (firstn i xs) s1) as [[zs|e] s3] eqn:Hpre;
        cbn [snd] in *; exact Hfy.
Qed.
End ComprehensionFacts.

Lemma range_length n : List.length (range n) = n.
Proof. unfold range. rewrite length_map, length_seq. reflexivity. Qed.

Lemma range_In n z : In z (range n) <-> 0 <= z < Z.of_nat n.
Proof.
  unfold range. rewrite in_map_iff. split.
  - intros (k & <- & Hk). apply in_seq in Hk. lia.
  - intros Hz. exists (Z.to_nat z). split; [lia|]. apply in_seq. lia.
Qed.

Lemma range_nth_error n i :
  (i < n)%nat -> nth_error (range n) i = Some (Z.of_nat i).
Proof.
  intros Hi. unfold range. rewrite nth_error_map.
  rewrite nth_error_seq. destruct (Nat.ltb_spec i n); [reflexivity|lia].
Qed.



(** In-range indexing is [nth_error]. *)
Lemma index_in_range {A} (l : list A) (i : Z) :
  0 <= i < Z.of_nat (List.length l) ->
  exists a, nth_error l (Z.to_nat i) = Some a /\ index l i = Ok a.
Proof.
  intros Hi. unfold index.
  destruct (Z.ltb_spec i 0); [lia|].
  destruct (Z.leb_spec 0 i); [|lia].
  destruct (Z.ltb_spec i (Z.of_nat (List.length l))); [|lia].
  cbn [andb].
  destruct (nth_error l (Z.to_nat i)) as [a|] eqn:Hn.
  - exists a; split; reflexivity.
  - apply nth_error_None in Hn. lia.
Qed.

(** ** The text of a formatted number *)

Section TextFacts.
Import Text Vocab.
Local Open Scope string_scope.












(** *** What the text stands for *)






(** The nearest integer is within a half. *)
Lemma round_half_even_nearest q :
  (inject_Z (round_half_even q) - (1 # 2) <= q
   /\ q <= inject_Z (round_half_even q) + (1 # 2))%Q.
Proof.
  destruct q as [n d]. unfold round_half_even. cbn [Qnum Qden].
  pose proof (Z.div_mod n (Z.pos d) ltac:(discriminate)) as Hdm.
  pose proof (Z.mod_pos_bound n (Z.pos d) ltac:(reflexivity)) as Hr.
  set (fl := n / Z.pos d) in *. set (r := n mod Z.pos d) in *.
  assert (Hcases : forall z, (z = fl /\ 2 * r <= Z.pos d)
                             \/ (z = fl + 1 /\ Z.pos d <= 2 * r) ->
    (inject_Z z - (1 # 2) <= n # d /\ n # d <= inject_Z z + (1 # 2))%Q).
  { intros z Hz. unfold Qle, Qminus, Qplus, Qopp, inject_Z. cbn [Qnum Qden].
    rewrite !Pos2Z.inj_mul. nia. }
  apply Hcases.
  destruct (Z.ltb_spec (2 * r) (Z.pos d)); [left; lia|].
  destruct (Z.ltb_spec (Z.pos d) (2 * r)); [right; lia|].
  destruct (Z.even fl); [left|right]; lia.
Qed.


End TextFacts.

(** ** The simulated and the hardware read *)

Section MeterFacts.
Import Wlm Vocab.
Variable self : WavelengthMeter.

Lemma unit_of_bits_range k : (0 <= unit_of_bits k /\ unit_of_bits k < 1)%Q.
Proof.
  unfold unit_of_bits, Qle, Qlt. cbn [Qnum Qden].
  assert (H : (k mod 2 ^ 53 < 2 ^ 53)%N) by (apply N.mod_lt; discriminate).
  set (m := (k mod 2 ^ 53)%N) in *.
  apply N2Z.inj_lt in H.
  change (Z.of_N (2 ^ 53)) with 9007199254740992 in H.
  change (Z.pos (2 ^ 53)) with 9007199254740992.
  split; lia.
Qed.


Lemma random_uniform_eq a b s :
  random_uniform a b s = (Ok (next_uniform a b s), consume s).
Proof. reflexivity. Qed.

Lemma GetWavelength_hardware channel s :
  debug self = false ->
  GetWavelength self channel s =
    (Ok (PyFloat (GetWavelengthNum (dll self) (dll_log s) (c_long channel) 0)),
     after_call (CallGetWavelengthNum (c_long channel) 0) s).
Proof. intros Hd. unfold GetWavelength. rewrite Hd. reflexivity. Qed.

Lemma GetWavelength_sim_unsupported channel s :
  debug self = true -> 5 < channel ->
  GetWavelength self channel s = (Ok (PyInt 0), s).
Proof.
  intros Hd Hc. unfold GetWavelength. rewrite Hd. cbn [negb].
  destruct (Z.gtb_spec channel 5); [reflexivity|lia].
Qed.

Lemma GetWavelength_sim_table channel s :
  debug self = true -> channel <= 5 ->
  GetWavelength self channel s =
    match index base_table (channel - 1) with
    | Ok b => (Ok (PyFloat (to_float b
                            + inject_Z channel * next_uniform 0 0.0001 s)),
               consume s)
    | Raise e => (Raise e, s)
    end.
Proof.
  intros Hd Hc. unfold GetWavelength. rewrite Hd. cbn [negb].
  destruct (Z.gtb_spec channel 5); [lia|].
  unfold bind, of_res.
  destruct (index base_table (channel - 1)); reflexivity.
Qed.

(** Reading any of the channels 1..8 succeeds. *)
Lemma GetWavelength_returns channel s :
  1 <= channel <= 8 ->
  exists x s', GetWavelength self channel s = (Ok x, s').
Proof.
  intros Hc. destruct (debug self) eqn:Hd.
  - destruct (Z.le_gt_cases channel 5) as [Hlo|Hhi].
    + rewrite (GetWavelength_sim_table _ _ Hd Hlo).
      destruct (index_in_range base_table (channel - 1)) as (b & _ & ->);
        [cbn; lia|].
      eauto.
    + rewrite (GetWavelength_sim_unsupported _ _ Hd Hhi). eauto.
  - rewrite (GetWavelength_hardware _ _ Hd). eauto.
Qed.

(** The [wavelengths] property returns, with eight values. *)
Lemma wavelengths_returns s :
  exists ws s', wavelengths self s = (Ok ws, s') /\ List.length ws = 8%nat.
Proof.
  unfold wavelengths.
  destruct (mapM_total (fun i => GetWavelength self (i + 1)) (range 8))
    with (s := s) as (ws & s' & Hrun & Hlen).
  - intros i Hi s0. apply range_In in Hi. apply GetWavelength_returns. lia.
  - exists ws, s'. split; [exact Hrun|]. rewrite Hlen. apply range_length.
Qed.
End MeterFacts.

(** ** Simulated read: the jitter bound and the low end of the channel range *)

Section SimulatedRead.
Import Wlm Vocab.
Variable self : WavelengthMeter.
Hypothesis simulated : debug self = true.



End SimulatedRead.

Import Wlm Text Server Vocab.



(** C10.  The simulated read does not validate the low end of its 1-based
    channel argument.  For [-7 <= c <= 0] it returns the table entry counted
    from the end, entry [c - 1 + 8], plus [c] times the jitter, and raises
    nothing: channel 0 returns a value equal to zero, channel -1 returns a
    value that is never positive and is negative as soon as the draw is not
    zero.  For [c <= -8] the call raises [IndexError] and draws nothing. *)
Theorem C10_simulated_read_low_channels
  (self : WavelengthMeter) (c : Z) (s : Instr) :
  debug self = true ->
  (-7 <= c <= 0 ->
   exists b,
     nth_error base_table (Z.to_nat (c - 1 + 8)) = Some b /\
     GetWavelength self c s =
       (Ok (PyFloat (to_float b + inject_Z c * next_uniform 0 0.0001 s)),
        consume s)) /\
  (c = 0 ->
   exists x s', GetWavelength self c s = (Ok x, s') /\ (to_float x == 0)%Q) /\
  (c = -1 ->
   exists x s',
     GetWavelength self c s = (Ok x, s') /\
     (to_float x <= 0)%Q /\
     ((0 < unit_of_bits (rng_stream s (rng_pos s)))%Q -> (to_float x < 0)%Q)) /\
  (c <= -8 ->
   GetWavelength self c s =
     (Raise (IndexError "list index out of range"), s)).
Proof.
  intros Hd.
  assert (Hlow : -7 <= c <= 0 ->
    exists b,
      nth_error base_table (Z.to_nat (c - 1 + 8)) = Some b /\
      index base_table (c - 1) = Ok b).
  { intros Hc.
    assert (H : c = 0 \/ c = -1 \/ c = -2 \/ c = -3 \/ c = -4 \/ c = -5
                \/ c = -6 \/ c = -7) by lia.
    repeat destruct H as [H|H]; subst c; eexists; split; reflexivity. }
  split; [|split; [|split]].
  - intros Hc. destruct (Hlow Hc) as (b & Hn & Hidx).
    exists b. split; [exact Hn|].
    rewrite (GetWavelength_sim_table self c s Hd ltac:(lia)), Hidx.
    reflexivity.
  - intros ->. eexists. eexists.
    rewrite (GetWavelength_sim_table self 0 s Hd ltac:(lia)).
    change (index base_table (0 - 1)) with (Ok (A := num) (PyInt 0)).
    split; [reflexivity|]. cbn [to_float].
    change (inject_Z 0) with 0%Q. lra.
  - intros ->. eexists. eexists.
    rewrite (GetWavelength_sim_table self (-1) s Hd ltac:(lia)).
    change (index base_table (-1 - 1)) with (Ok (A := num) (PyInt 0)).
    split; [reflexivity|]. cbn [to_float].
    change (inject_Z 0) with 0%Q. change (inject_Z (-1)) with (-1 # 1)%Q.
    unfold next_uniform.
    destruct (unit_of_bits_range (rng_stream s (rng_pos s))) as [H0 H1].
    split; [lra|]. intros Hpos. lra.
  - intros Hc.
    rewrite (GetWavelength_sim_table self c s Hd ltac:(lia)).
    unfold index. cbn [List.length base_table].
    destruct (Z.ltb_spec (c - 1) 0); [|lia].
    destruct (Z.leb_spec 0 (c - 1 + Z.of_nat 8)); [lia|].
    reflexivity.
Qed.

(** C10, at channels -7, 0, -1 and -8 of the simulated meter; the first
    draw of [instr0] is not zero. *)
Lemma C10_witness :
  (exists b,
     nth_error base_table (Z.to_nat (-7 - 1 + 8)) = Some b /\
     GetWavelength Examples.sim (-7) Examples.instr0 =
       (Ok (PyFloat (to_float b
                     + inject_Z (-7) * next_uniform 0 0.0001 Examples.instr0)),
        consume Examples.instr0)) /\
  (exists x s',
     GetWavelength Examples.sim 0 Examples.instr0 = (Ok x, s')
     /\ (to_float x == 0)%Q) /\
  (exists x s',
     GetWavelength Examples.sim (-1) Examples.instr0 = (Ok x, s')
     /\ (to_float x < 0)%Q) /\
  GetWavelength Examples.sim (-8) Examples.instr0 =
    (Raise (IndexError "list index out of range"), Examples.instr0).
Proof.
  split; [|split; [|split]].
  - apply (C10_simulated_read_low_channels Examples.sim (-7) Examples.instr0
             eq_refl).
    lia.
  - apply (C10_simulated_read_low_channels Examples.sim 0 Examples.instr0
             eq_refl).
    reflexivity.
  - destruct (C10_simulated_read_low_channels Examples.sim (-1) Examples.instr0
                eq_refl) as (_ & _ & H & _).
    destruct (H eq_refl) as (x & s' & Hrun & _ & Hneg).
    exists x, s'. split; [exact Hrun|]. apply Hneg. reflexivity.
  - apply (C10_simulated_read_low_channels Examples.sim (-8) Examples.instr0
             eq_refl).
    lia.
Defined.

(** ** The query path *)

Lemma on_instr_ok {A} (m : M Instr A) (w : World) (a : A) (i : Instr) :
  m (instr w) = (Ok a, i) -> on_instr m w = (Ok a, with_instr i w).
Proof. unfold on_instr. intros ->. reflexivity. Qed.

Lemma switcher_mode_returns (self : WavelengthMeter) (s : Instr) :
  exists sw s', switcher_mode self s = (Ok sw, s').
Proof.
  unfold switcher_mode.
  destruct (debug self); cbn [negb]; eexists; eexists; reflexivity.
Qed.

(** The handler's two reads, as every request starts with them. *)
Lemma ApiHandler_get_reads (wlmeter : WavelengthMeter) (w : World) :
  exists ws sw i1 i2,
    wavelengths wlmeter (instr w) = (Ok ws, i1) /\
    switcher_mode wlmeter i1 = (Ok sw, i2) /\
    List.length ws = 8%nat /\
    forall channel,
      ApiHandler_get wlmeter channel w =
        match channel with
        | None =>
            (Ok (write (ChunkJson [ ("wavelengths"%string, VList ws);
                                    ("switcher_mode"%string, VNum (PyInt sw)) ])
                       fresh_response),
             with_instr i2 w)
        | Some ch =>
            if (ch >=? 0) && (ch <? Z.of_nat (List.length ws)) then
              match index ws ch with
              | Ok x => (Ok (write (ChunkText (format_f8 x)) fresh_response),
                         with_instr i2 w)
              | Raise e => (Raise e, with_instr i2 w)
              end
            else
              (Ok (write (ChunkJson [ ("error"%string, VStr "Wrong channel") ])
                         (set_status 400 fresh_response)),
               with_instr i2 w)
        end.
Proof.
  destruct (wavelengths_returns wlmeter (instr w)) as (ws & i1 & Hws & Hlen).
  destruct (switcher_mode_returns wlmeter i1) as (sw & i2 & Hsw).
  exists ws, sw, i1, i2. repeat split; try assumption.
  intros channel. unfold ApiHandler_get.
  rewrite (bind_ok _ _ (on_instr_ok _ w _ _ Hws)).
  assert (Hsw' : on_instr (switcher_mode wlmeter) (with_instr i1 w)
                 = (Ok sw, with_instr i2 w)).
  { unfold on_instr. cbn [instr with_instr]. rewrite Hsw. reflexivity. }
  rewrite (bind_ok _ _ Hsw').
  destruct channel as [ch|]; [|reflexivity].
  destruct ((ch >=? 0) && (ch <? Z.of_nat (List.length ws))); [|reflexivity].
  unfold bind. destruct (index ws ch); reflexivity.
Qed.

(** C7.  The whole-snapshot read yields eight wavelengths and an integer
    switcher mode, whatever the variant of the meter and whatever its
    state: the [wavelengths] property returns a list of length 8, and the
    query without a channel answers with that list under ["wavelengths"]
    and the integer read from [switcher_mode] under ["switcher_mode"]. *)
Theorem C7_snapshot_has_eight_wavelengths
  (wlmeter : WavelengthMeter) (w : World) :
  exists ws sw i1 i2,
    wavelengths wlmeter (instr w) = (Ok ws, i1) /\
    List.length ws = 8%nat /\
    switcher_mode wlmeter i1 = (Ok sw, i2) /\
    ApiHandler_get wlmeter None w =
      (Ok {| status := 200;
             body := [ ChunkJson [ ("wavelengths"%string, VList ws);
                                   ("switcher_mode"%string, VNum (PyInt sw)) ] ] |},
       with_instr i2 w).
Proof.
  destruct (ApiHandler_get_reads wlmeter w)
    as (ws & sw & i1 & i2 & Hws & Hsw & Hlen & Hget).
  exists ws, sw, i1, i2. repeat split; try assumption.
  rewrite (Hget None). reflexivity.
Qed.

(** C1.  The single-channel query with an integer channel [ch]: for
    [ch < 0] or [ch >= 8] it returns normally with status 400 and the body
    [{"error": "Wrong channel"}]; for [0 <= ch < 8] it returns normally with
    status 200 and, as its body, the formatted wavelength at index [ch] of
    the list just read.  In neither case does it raise. *)
Theorem C1_channel_index_is_validated
  (wlmeter : WavelengthMeter) (ch : Z) (w : World) :
  ((ch < 0 \/ ch >= 8) ->
   fst (ApiHandler_get wlmeter (Some ch) w) =
     Ok {| status := 400;
           body := [ ChunkJson [ ("error"%string, VStr "Wrong channel") ] ] |}) /\
  (0 <= ch < 8 ->
   exists ws i x,
     wavelengths wlmeter (instr w) = (Ok ws, i) /\
     nth_error ws (Z.to_nat ch) = Some x /\
     fst (ApiHandler_get wlmeter (Some ch) w) =
       Ok {| status := 200; body := [ ChunkText (format_f8 x) ] |}).
Proof.
  destruct (ApiHandler_get_reads wlmeter w)
    as (ws & sw & i1 & i2 & Hws & Hsw & Hlen & Hget).
  rewrite (Hget (Some ch)), Hlen. split.
  - intros Hout.
    destruct (Z.geb_spec ch 0); destruct (Z.ltb_spec ch (Z.of_nat 8));
      cbn [andb fst]; try reflexivity; lia.
  - intros Hin.
    destruct (index_in_range ws ch) as (x & Hnth & Hidx); [lia|].
    exists ws, i1, x. repeat split; try assumption.
    destruct (Z.geb_spec ch 0); [|lia].
    destruct (Z.ltb_spec ch (Z.of_nat 8)); [|lia].
    cbn [andb]. rewrite Hidx. reflexivity.
Qed.

(** C1, at the channels -1, 8 and 3 of the simulated meter. *)
Lemma C1_witness :
  fst (ApiHandler_get Examples.sim (Some (-1)) Examples.world_empty) =
    Ok {| status := 400;
          body := [ ChunkJson [ ("error"%string, VStr "Wrong channel") ] ] |} /\
  fst (ApiHandler_get Examples.sim (Some 8) Examples.world_empty) =
    Ok {| status := 400;
          body := [ ChunkJson [ ("error"%string, VStr "Wrong channel") ] ] |} /\
  exists ws i x,
    wavelengths Examples.sim (instr Examples.world_empty) = (Ok ws, i) /\
    nth_error ws (Z.to_nat 3) = Some x /\
    fst (ApiHandler_get Examples.sim (Some 3) Examples.world_empty) =
      Ok {| status := 200; body := [ ChunkText (format_f8 x) ] |}.
Proof.
  split; [|split].
  - apply (C1_channel_index_is_validated Examples.sim (-1) Examples.world_empty).
    left; lia.
  - apply (C1_channel_index_is_validated Examples.sim 8 Examples.world_empty).
    right; lia.
  - apply (C1_channel_index_is_validated Examples.sim 3 Examples.world_empty).
    lia.
Defined.



(** ** The broadcast path *)

Lemma wavelengths_one_poll (self : WavelengthMeter) (s : Instr) :
  one_poll self s (snd (wavelengths self s)).
Proof.
  unfold one_poll, wavelengths, GetWavelength.
  destruct (debug self); cbn [negb];
    (split; [reflexivity|split; reflexivity]).
Qed.

Lemma with_sent_nil (w : World) : with_sent (sent w ++ []) w = w.
Proof. destruct w; unfold with_sent; cbn. rewrite app_nil_r. reflexivity. Qed.

Section Broadcast.
Variable payload : string.

Let send (c : Handler) : M World unit := write_message c payload.

(** The loop over handlers whose connections are all open writes one
    frame to each. *)
Lemma forM_write_all_open (l : list Handler) :
  forall w,
    all_open l w ->
    forM_ l send w = (Ok tt, with_sent (sent w ++ frames payload l) w).
Proof.
  induction l as [|c l IH]; intros w Hopen.
  - cbn. rewrite with_sent_nil. reflexivity.
  - cbn [forM_]. unfold bind, send at 1, write_message.
    rewrite (Hopen c (or_introl eq_refl)).
    rewrite IH.
    + cbn [sent with_sent frames map]. rewrite <- app_assoc.
      reflexivity.
    + intros c' Hc'. unfold is_closing. cbn [closing with_sent].
      apply Hopen. right; exact Hc'.
Qed.

(** The loop stops at the first handler whose connection is closing: the
    handlers before it have their frame, the others have none. *)
Lemma forM_write_stops (pre post : list Handler) (c : Handler) :
  forall w,
    all_open pre w ->
    is_closing c w = true ->
    forM_ (pre ++ c :: post) send w =
      (Raise WebSocketClosedError,
       with_sent (sent w ++ frames payload pre) w).
Proof.
  induction pre as [|c0 pre IH]; intros w Hopen Hc.
  - cbn [app forM_]. unfold bind, send at 1, write_message. rewrite Hc.
    cbn. rewrite with_sent_nil. reflexivity.
  - cbn [app forM_]. unfold bind, send at 1, write_message.
    rewrite (Hopen c0 (or_introl eq_refl)).
    rewrite IH.
    + cbn [sent with_sent frames map]. rewrite <- app_assoc.
      reflexivity.
    + intros c' Hc'. unfold is_closing. cbn [closing with_sent].
      apply Hopen. right; exact Hc'.
    + exact Hc.
Qed.
End Broadcast.

(** [send_data] with somebody connected: one read, then the loop. *)
Lemma send_data_polls_once
  (float_repr : Q -> string) (wlmeter : WavelengthMeter) (w : World) :
  clients w <> [] ->
  exists data i',
    wavelengths wlmeter (instr w) = (Ok data, i') /\
    List.length data = 8%nat /\
    one_poll wlmeter (instr w) i' /\
    send_data float_repr wlmeter w =
      forM_ (clients w)
            (fun c => write_message c (json_dumps float_repr data))
            (with_instr i' w).
Proof.
  intros Hne.
  destruct (wavelengths_returns wlmeter (instr w)) as (data & i' & Hws & Hlen).
  exists data, i'.
  split; [exact Hws|]. split; [exact Hlen|]. split.
  - pose proof (wavelengths_one_poll wlmeter (instr w)) as H.
    rewrite Hws in H. exact H.
  - unfold send_data.
    destruct (clients w) as [|c l] eqn:Hcl; [contradiction|].
    cbn [List.length].
    destruct (Z.ltb_spec 0 (Z.of_nat (S (List.length l)))); [|lia].
    rewrite (bind_ok _ _ (on_instr_ok _ w _ _ Hws)). reflexivity.
Qed.



(** C4.  With nobody registered, [send_data] returns at once and leaves
    the whole process state as it was: the instrument is not read (no
    driver call is logged, no random number is drawn) and no frame is
    written. *)
Theorem C4_no_subscriber_no_poll
  (float_repr : Q -> string) (wlmeter : WavelengthMeter) (w : World) :
  clients w = [] ->
  send_data float_repr wlmeter w = (Ok tt, w).
Proof. intros Hcl. unfold send_data. rewrite Hcl. reflexivity. Qed.

(** C4, on the hardware meter with nobody connected. *)
Lemma C4_witness :
  clients Examples.world_empty = [] /\
  send_data Examples.repr4 Examples.hw Examples.world_empty
  = (Ok tt, Examples.world_empty).
Proof.
  split; [reflexivity|].
  apply (C4_no_subscriber_no_poll Examples.repr4 Examples.hw Examples.world_empty).
  reflexivity.
Defined.

(** ** Closing a connection *)

Lemma remove_first_In (x : nat) (l : list nat) :
  In x l ->
  exists pre post,
    l = pre ++ x :: post /\ ~ In x pre /\
    remove_first Nat.eqb x l = Some (pre ++ post).
Proof.
  induction l as [|y l IH]; intros Hin; [contradiction|].
  cbn [remove_first].
  destruct (Nat.eqb_spec y x) as [->|Hne].
  - exists [], l. repeat split. intros [].
  - destruct Hin as [Heq|Hin]; [contradiction|].
    destruct (IH Hin) as (pre & post & -> & Hpre & ->).
    exists (y :: pre), post. repeat split.
    intros [Heq|Hin']; [contradiction|exact (Hpre Hin')].
Qed.

Lemma remove_first_not_In (x : nat) (l : list nat) :
  ~ In x l -> remove_first Nat.eqb x l = None.
Proof.
  induction l as [|y l IH]; intros Hnin; [reflexivity|].
  cbn [remove_first].
  destruct (Nat.eqb_spec y x) as [->|Hne].
  - exfalso. apply Hnin. left; reflexivity.
  - rewrite IH; [reflexivity|]. intros Hin. apply Hnin. right; exact Hin.
Qed.

(** C5 fails on the code: closing a handler that was never registered, or
    closing one a second time, raises [ValueError]. *)
Lemma C5_counterexample :
  ~ In 5%nat (clients Examples.world_three) /\
  fst (WsHandler_on_close 5%nat Examples.world_three)
  = Raise (ValueError "list.remove(x): x not in list") /\
  fst ((WsHandler_open 5%nat ;;; WsHandler_on_close 5%nat ;;;
        WsHandler_on_close 5%nat) Examples.world_three)
  = Raise (ValueError "list.remove(x): x not in list").
Proof.
  split; [|split; reflexivity].
  cbn. intros [H|[H|[H|[]]]]; discriminate H.
Qed.

(** C5, amended.  [on_close] on a registered handler deletes its first
    occurrence from the client list, prints, and returns normally; on a
    handler that is not in the list - never added, or removed already - it
    raises [ValueError] and leaves the process state as it was. *)
Theorem C5_on_close_needs_a_registered_handler (self : Handler) (w : World) :
  (In self (clients w) ->
   exists pre post,
     clients w = pre ++ self :: post /\
     ~ In self pre /\
     WsHandler_on_close self w =
       (Ok tt,
        with_stdout (stdout w ++ ["connection closed"%string])
                    (with_clients (pre ++ post) w))) /\
  (~ In self (clients w) ->
   WsHandler_on_close self w =
     (Raise (ValueError "list.remove(x): x not in list"), w)).
Proof.
  split.
  - intros Hin.
    destruct (remove_first_In self (clients w) Hin)
      as (pre & post & Hcl & Hpre & Hrm).
    exists pre, post. repeat split; try assumption.
    unfold WsHandler_on_close, bind. rewrite Hrm. reflexivity.
  - intros Hnin.
    unfold WsHandler_on_close, bind.
    rewrite (remove_first_not_In self (clients w) Hnin). reflexivity.
Qed.

(** C5 amended, at the second of three browsers and at a stranger. *)
Lemma C5_witness :
  (exists pre post,
     clients Examples.world_three = pre ++ 2%nat :: post /\
     ~ In 2%nat pre /\
     WsHandler_on_close 2%nat Examples.world_three =
       (Ok tt,
        with_stdout (stdout Examples.world_three ++ ["connection closed"%string])
                    (with_clients (pre ++ post) Examples.world_three))) /\
  WsHandler_on_close 5%nat Examples.world_three =
    (Raise (ValueError "list.remove(x): x not in list"), Examples.world_three).
Proof.
  split.
  - apply (C5_on_close_needs_a_registered_handler 2%nat Examples.world_three).
    cbn. right; left; reflexivity.
  - apply (C5_on_close_needs_a_registered_handler 5%nat Examples.world_three).
    cbn. intros [H|[H|[H|[]]]]; discriminate H.
Defined.

(** ** A send that fails *)

(** C6 fails on the code: with three browsers registered and the
    connection of the second one closing, the broadcast raises out of
    [send_data], the third browser - whose connection is open - gets no
    frame, and the second one is still registered afterwards. *)
Lemma C6_counterexample :
  is_closing 2%nat Examples.world_second_closing = true /\
  is_closing 3%nat Examples.world_second_closing = false /\
  fst (send_data Examples.repr4 Examples.sim Examples.world_second_closing)
  = Raise WebSocketClosedError /\
  map fst (sent (snd (send_data Examples.repr4 Examples.sim
                                Examples.world_second_closing)))
  = [1%nat] /\
  clients (snd (send_data Examples.repr4 Examples.sim
                          Examples.world_second_closing))
  = [1; 2; 3]%nat.
Proof. repeat split; vm_compute; reflexivity. Qed.

(** C6, amended.  When the first registered handler whose connection is
    closing is [c], with [pre] before it and [post] after it in the client
    list, the broadcast stops at [c]: the handlers of [pre] have their
    frame, [c] and the handlers of [post] have none, the client list is
    unchanged, and [send_data] ends by raising [WebSocketClosedError].  The
    periodic-callback runner catches that exception and logs it, so one
    firing of the timer never raises. *)
Theorem C6_send_failure_stops_the_broadcast
  (float_repr : Q -> string) (wlmeter : WavelengthMeter) (w : World)
  (pre post : list Handler) (c : Handler) :
  clients w = pre ++ c :: post ->
  all_open pre w ->
  is_closing c w = true ->
  exists data i',
    wavelengths wlmeter (instr w) = (Ok data, i') /\
    send_data float_repr wlmeter w =
      (Raise WebSocketClosedError,
       with_sent (sent w ++ frames (json_dumps float_repr data) pre)
                 (with_instr i' w)) /\
    clients (snd (send_data float_repr wlmeter w)) = clients w /\
    PeriodicCallback_run float_repr wlmeter w =
      (Ok tt,
       with_app_log (app_log w ++ [WebSocketClosedError])
         (with_sent (sent w ++ frames (json_dumps float_repr data) pre)
                    (with_instr i' w))) /\
    forall w0, fst (PeriodicCallback_run float_repr wlmeter w0) = Ok tt.
Proof.
  intros Hcl Hopen Hc.
  assert (Hne : clients w <> []).
  { rewrite Hcl. destruct pre; discriminate. }
  destruct (send_data_polls_once float_repr wlmeter w Hne)
    as (data & i' & Hws & _ & _ & Hsend).
  assert (Hrun : send_data float_repr wlmeter w =
                 (Raise WebSocketClosedError,
                  with_sent (sent w ++ frames (json_dumps float_repr data) pre)
                            (with_instr i' w))).
  { rewrite Hsend, Hcl.
    apply (forM_write_stops (json_dumps float_repr data) pre post c
             (with_instr i' w)).
    - exact Hopen.
    - exact Hc. }
  exists data, i'.
  split; [exact Hws|]. split; [exact Hrun|]. split; [|split].
  - rewrite Hrun. reflexivity.
  - unfold PeriodicCallback_run, try_except. rewrite Hrun. reflexivity.
  - intros w0. unfold PeriodicCallback_run, try_except.
    destruct (send_data float_repr wlmeter w0) as [[[]|e] w1]; reflexivity.
Qed.

(** C6 amended, with the connection of the second of three browsers
    closing. *)
Lemma C6_witness :
  exists data i',
    wavelengths Examples.sim (instr Examples.world_second_closing)
    = (Ok data, i') /\
    send_data Examples.repr4 Examples.sim Examples.world_second_closing =
      (Raise WebSocketClosedError,
       with_sent (sent Examples.world_second_closing
                  ++ frames (json_dumps Examples.repr4 data) [1%nat])
                 (with_instr i' Examples.world_second_closing)) /\
    clients (snd (send_data Examples.repr4 Examples.sim
                            Examples.world_second_closing))
    = clients Examples.world_second_closing /\
    PeriodicCallback_run Examples.repr4 Examples.sim
                         Examples.world_second_closing =
      (Ok tt,
       with_app_log (app_log Examples.world_second_closing
                     ++ [WebSocketClosedError])
         (with_sent (sent Examples.world_second_closing
                     ++ frames (json_dumps Examples.repr4 data) [1%nat])
                    (with_instr i' Examples.world_second_closing))) /\
    forall w0,
      fst (PeriodicCallback_run Examples.repr4 Examples.sim w0) = Ok tt.
Proof.
  apply (C6_send_failure_stops_the_broadcast
           Examples.repr4 Examples.sim Examples.world_second_closing
           [1%nat] [3%nat] 2%nat).
  - reflexivity.
  - intros c [<-|[]]. reflexivity.
  - reflexivity.
Defined.

(** ** Pattern data *)








(** ** Worked examples *)

Example format_f8_samples :
  format_f8 (PyFloat 679.288900015) = "679.28890002"%string /\
  format_f8 (PyFloat 679.288900005) = "679.28890000"%string /\
  format_f8 (PyFloat (-3)) = "-3.00000000"%string /\
  format_f8 (PyInt 0) = "0.00000000"%string.
Proof. repeat split; vm_compute; reflexivity. Qed.

Example simulated_query_channel_2 :
  fst (ApiHandler_get Examples.sim (Some 2) Examples.world_empty)
  = Ok {| status := 200; body := [ ChunkText "679.28903224" ] |}.
Proof. vm_compute. reflexivity. Qed.

Example hardware_snapshot :
  fst (ApiHandler_get Examples.hw None Examples.world_empty)
  = Ok {| status := 200;
          body := [ ChunkJson
                      [ ("wavelengths"%string,
                         VList [ PyFloat 781.2412; PyFloat 782.2412;
                                 PyFloat 783.2412; PyFloat 784.2412;
                                 PyFloat 785.2412; PyFloat 786.2412;
                                 PyFloat 787.2412; PyFloat 788.2412 ]);
                        ("switcher_mode"%string, VNum (PyInt 1)) ] ] |} /\
  dll_log (instr (snd (ApiHandler_get Examples.hw None Examples.world_empty)))
  = CallGetSwitcherMode 0 :: poll_calls.
Proof. split; vm_compute; reflexivity. Qed.

Example broadcast_to_three :
  sent (snd (send_data Examples.repr4 Examples.sim Examples.world_three))
  = frames "[460.8618, 689.2644, 679.2890, 707.2020, 921.7236, 0, 0, 0]"
           [1; 2; 3]%nat.
Proof. vm_compute. reflexivity. Qed.

Example simulated_pattern :
  fst (GetPatternData Examples.sim 1 1 Examples.instr0)
  = Ok (0, [ PyInt 653; PyInt 542; PyInt 431; PyInt 320; PyInt 209;
             PyInt 98; PyInt 988; PyInt 877; PyInt 766; PyInt 655 ]).
Proof. vm_compute. reflexivity. Qed.

(** * The rest of the two files: properties *)

(** ** Dicts *)

Section DictFacts.
Import Dict.

Lemma dict_get_app (k : string) (a b : dict) :
  dict_get k (a ++ b)
  = match dict_get k b with
    | Some v => Some v
    | None => dict_get k a
    end.
Proof.
  induction a as [|[k' v'] a IH]; cbn [app dict_get].
  - destruct (dict_get k b); reflexivity.
  - rewrite IH. destruct (dict_get k b); reflexivity.
Qed.

Lemma dict_get_replace (k k0 : string) (v : pyvalue) (d : dict) :
  dict_get k (map (fun kv => if String.eqb (fst kv) k0 then (fst kv, v) else kv) d)
  = if String.eqb k0 k
    then match dict_get k d with Some _ => Some v | None => None end
    else dict_get k d.
Proof.
  induction d as [|[k' v'] d IH]; cbn [map dict_get fst].
  - destruct (String.eqb k0 k); reflexivity.
  - rewrite IH.
    destruct (String.eqb_spec k0 k) as [->|Hne].
    + destruct (String.eqb_spec k' k) as [->|Hne'].
      * cbn [dict_get]. rewrite String.eqb_refl.
        destruct (dict_get k d); reflexivity.
      * cbn [dict_get].
        destruct (dict_get k d); [reflexivity|].
        destruct (String.eqb_spec k' k); [contradiction|reflexivity].
    + destruct (String.eqb_spec k' k0) as [->|Hne'].
      * cbn [dict_get].
        destruct (dict_get k d); [reflexivity|].
        destruct (String.eqb_spec k0 k); [contradiction|reflexivity].
      * reflexivity.
Qed.

(** Reading a key after writing one. *)
Lemma dict_get_set (k k0 : string) (v : pyvalue) (d : dict) :
  dict_get k (dict_set k0 v d)
  = if String.eqb k0 k then Some v else dict_get k d.
Proof.
  unfold dict_set, dict_mem.
  destruct (dict_get k0 d) as [v0|] eqn:Hmem.
  - rewrite dict_get_replace.
    destruct (String.eqb_spec k0 k) as [->|_]; [|reflexivity].
    rewrite Hmem. reflexivity.
  - rewrite dict_get_app. cbn [dict_get].
    destruct (String.eqb k0 k); reflexivity.
Qed.

(** Reading a key after [update]: the updating dict first, the updated one
    for the keys it does not have. *)
Lemma dict_get_update (k : string) (e : dict) :
  forall d,
    dict_get k (dict_update d e)
    = match dict_get k e with
      | Some v => Some v
      | None => dict_get k d
      end.
Proof.
  unfold dict_update.
  induction e as [|[k0 v0] e IH]; intros d; cbn [fold_left dict_get fst snd].
  - reflexivity.
  - rewrite IH, dict_get_set.
    destruct (dict_get k e); [reflexivity|].
    destruct (String.eqb k0 k); reflexivity.
Qed.
End DictFacts.

(** ** Configuration and start-up *)

Section ConfigFacts.
Import Dict Config.
Variable read_json : string -> option dict.

(** What [get_config] returns once the file is loaded, key by key. *)
Lemma get_config_lookup (args : Args) (file : dict) :
  read_json (args_config args) = Some file ->
  exists config,
    get_config read_json args = Up config /\
    forall k,
      dict_get k config
      = if String.eqb k "debug" then
          Some (if args_debug args then PBool true else PNone)
        else if String.eqb k "config" then Some (PStr (args_config args))
        else if String.eqb k "port" then
          match args_port args with
          | Some p => Some (PNum (PyInt p))
          | None =>
              match dict_get "port" file with
              | Some v => Some v
              | None => Some (PNum (PyInt 8000))
              end
          end
        else
          match dict_get k file with
          | Some v => Some v
          | None => dict_get k default_config
          end.
Proof.
  intros Hfile. unfold get_config. rewrite Hfile. cbv zeta.
  assert (Hport : dict_get "port" (dict_update default_config file)
                  = match dict_get "port" file with
                    | Some v => Some v
                    | None => Some (PNum (PyInt 8000))
                    end).
  { rewrite dict_get_update. destruct (dict_get "port" file); reflexivity. }
  assert (Hvars : forall debug port path k,
    dict_get k (vars debug port path)
    = if String.eqb k "debug" then Some debug
      else if String.eqb k "config" then Some (PStr path)
      else if String.eqb k "port" then Some port
      else None).
  { intros debug port path k. unfold vars. cbn [dict_get].
    rewrite !(String.eqb_sym _ k).
    destruct (String.eqb_spec k "port") as [->|_]; [reflexivity|].
    destruct (String.eqb_spec k "config") as [->|_]; [reflexivity|].
    destruct (String.eqb k "debug"); reflexivity. }
  destruct (args_port args) as [p|].
  - eexists. split; [reflexivity|]. intros k.
    rewrite dict_get_update, Hvars.
    destruct (String.eqb k "debug"); [reflexivity|].
    destruct (String.eqb k "config"); [reflexivity|].
    destruct (String.eqb k "port"); [reflexivity|].
    apply dict_get_update.
  - rewrite Hport.
    destruct (dict_get "port" file) as [v|] eqn:Hp.
    + eexists. split; [reflexivity|]. intros k.
      rewrite dict_get_update, Hvars.
      destruct (String.eqb k "debug"); [reflexivity|].
      destruct (String.eqb k "config"); [reflexivity|].
      destruct (String.eqb k "port"); [reflexivity|].
      apply dict_get_update.
    + eexists. split; [reflexivity|]. intros k.
      rewrite dict_get_update, Hvars.
      destruct (String.eqb k "debug"); [reflexivity|].
      destruct (String.eqb k "config"); [reflexivity|].
      destruct (String.eqb k "port"); [reflexivity|].
      apply dict_get_update.
Qed.
End ConfigFacts.

Import Dict Config.



(** X2.  The ["debug"] key of the configuration file has no effect: in the
    dict [get_config] returns, ["debug"] is [True] when [--debug] was given
    on the command line and [None] when it was not, whatever the file
    says. *)
Theorem X2_config_file_cannot_set_debug
  (read_json : string -> option dict) (args : Args) (file : dict) :
  read_json (args_config args) = Some file ->
  exists config,
    get_config read_json args = Up config /\
    dict_get "debug" config
    = Some (if args_debug args then PBool true else PNone).
Proof.
  intros Hfile.
  destruct (get_config_lookup read_json args file Hfile) as (config & Hrun & Hget).
  exists config. split; [exact Hrun|]. rewrite Hget. reflexivity.
Qed.

(** X2, with a file that says ["debug": true] and no [--debug]. *)
Lemma X2_witness :
  dict_get "debug" Samples.file_debug_9000 = Some (PBool true) /\
  exists config,
    get_config Samples.read_debug_9000 Samples.args_plain = Up config /\
    dict_get "debug" config = Some PNone.
Proof.
  split; [reflexivity|].
  apply (X2_config_file_cannot_set_debug
           Samples.read_debug_9000 Samples.args_plain Samples.file_debug_9000).
  reflexivity.
Defined.

(** X3.  The port: the one on the command line when there is one; else the
    ["port"] of the configuration file when it has one; else 8000. *)
Theorem X3_port_precedence
  (read_json : string -> option dict) (args : Args) (file : dict) :
  read_json (args_config args) = Some file ->
  exists config,
    get_config read_json args = Up config /\
    dict_get "port" config
    = match args_port args, dict_get "port" file with
      | Some p, _ => Some (PNum (PyInt p))
      | None, Some v => Some v
      | None, None => Some (PNum (PyInt 8000))
      end.
Proof.
  intros Hfile.
  destruct (get_config_lookup read_json args file Hfile) as (config & Hrun & Hget).
  exists config. split; [exact Hrun|]. rewrite Hget.
  cbn [String.eqb Ascii.eqb Bool.eqb andb].
  destruct (args_port args); [reflexivity|].
  destruct (dict_get "port" file); reflexivity.
Qed.

(** X3, with port 9000 in the file: without and with a port argument. *)
Lemma X3_witness :
  (exists config,
     get_config Samples.read_debug_9000 Samples.args_plain = Up config /\
     dict_get "port" config = Some (PNum (PyInt 9000))) /\
  (exists config,
     get_config Samples.read_debug_9000 Samples.args_debug_8080 = Up config /\
     dict_get "port" config = Some (PNum (PyInt 8080))).
Proof.
  split.
  - apply (X3_port_precedence Samples.read_debug_9000 Samples.args_plain
             Samples.file_debug_9000).
    reflexivity.
  - apply (X3_port_precedence Samples.read_debug_9000 Samples.args_debug_8080
             Samples.file_debug_9000).
    reflexivity.
Defined.

(** X4.  Every key other than ["debug"], ["config"] and ["port"] comes
    from the configuration file when the file has it and from the defaults
    when it has not; a key of neither is absent.  ["config"] is the path
    of the file. *)
Theorem X4_file_overrides_defaults
  (read_json : string -> option dict) (args : Args) (file : dict) :
  read_json (args_config args) = Some file ->
  exists config,
    get_config read_json args = Up config /\
    dict_get "config" config = Some (PStr (args_config args)) /\
    forall k,
      k <> "debug"%string -> k <> "config"%string -> k <> "port"%string ->
      dict_get k config
      = match dict_get k file with
        | Some v => Some v
        | None => dict_get k default_config
        end.
Proof.
  intros Hfile.
  destruct (get_config_lookup read_json args file Hfile) as (config & Hrun & Hget).
  exists config. split; [exact Hrun|]. split.
  - rewrite Hget. reflexivity.
  - intros k Hd Hc Hp. rewrite Hget.
    destruct (String.eqb_spec k "debug"); [contradiction|].
    destruct (String.eqb_spec k "config"); [contradiction|].
    destruct (String.eqb_spec k "port"); [contradiction|].
    reflexivity.
Qed.

(** X4, with a file that sets ["precision"] and not ["root"]. *)
Lemma X4_witness :
  exists config,
    get_config Samples.read_debug_9000 Samples.args_plain = Up config /\
    dict_get "config" config = Some (PStr "config.json") /\
    dict_get "precision" config = Some (PNum (PyInt 7)) /\
    dict_get "root" config = Some (PStr "/").
Proof.
  destruct (X4_file_overrides_defaults
              Samples.read_debug_9000 Samples.args_plain Samples.file_debug_9000
              eq_refl) as (config & Hrun & Hpath & Hget).
  exists config. split; [exact Hrun|]. split; [exact Hpath|]. split.
  - rewrite Hget; [reflexivity|discriminate..].
  - rewrite Hget; [reflexivity|discriminate..].
Defined.

(** X5.  Which meter the server starts with is decided by [--debug]
    alone.  Without it the process loads the DLL from the default path and
    runs on the hardware, even when the configuration file says
    ["debug": true], and it stops when the DLL does not load; with it the
    process runs the simulated meter and the DLL is not loaded at all. *)
Theorem X5_meter_follows_the_command_line
  (read_json : string -> option dict) (load_dll : string -> option Driver)
  (no_dll : Driver) (args : Args) (file : dict) :
  read_json (args_config args) = Some file ->
  exists config,
    get_config read_json args = Up config /\
    (args_debug args = false ->
     startup read_json load_dll no_dll args
     = match load_dll default_dllpath with
       | Some d => Up (config, {| debug := false; dll := d |})
       | None => Aborted (DllNotLoaded default_dllpath)
       end) /\
    (args_debug args = true ->
     startup read_json load_dll no_dll args
     = Up (config, {| debug := true; dll := no_dll |})).
Proof.
  intros Hfile.
  destruct (get_config_lookup read_json args file Hfile) as (config & Hrun & Hget).
  exists config. split; [exact Hrun|].
  unfold startup. rewrite Hrun, (Hget "debug"%string).
  cbn [String.eqb Ascii.eqb Bool.eqb andb].
  split; intros ->; unfold WavelengthMeter_init; cbn [truthy negb].
  - destruct (load_dll default_dllpath); reflexivity.
  - reflexivity.
Qed.

(** X5, with a file that says ["debug": true]: no flag and a DLL that
    loads, no flag and none, and the flag with no DLL. *)
Lemma X5_witness :
  (exists config,
     startup Samples.read_debug_9000 Samples.load_lab Examples.idle_driver
             Samples.args_plain
     = Up (config, Examples.hw)) /\
  startup Samples.read_debug_9000 Samples.load_fails Examples.idle_driver
          Samples.args_plain
  = Aborted (DllNotLoaded default_dllpath) /\
  (exists config,
     startup Samples.read_debug_9000 Samples.load_fails Examples.idle_driver
             Samples.args_debug_8080
     = Up (config, Examples.sim)).
Proof.
  split; [|split].
  - destruct (X5_meter_follows_the_command_line
                Samples.read_debug_9000 Samples.load_lab Examples.idle_driver
                Samples.args_plain Samples.file_debug_9000 eq_refl)
      as (config & _ & Hhw & _).
    exists config. exact (Hhw eq_refl).
  - destruct (X5_meter_follows_the_command_line
                Samples.read_debug_9000 Samples.load_fails Examples.idle_driver
                Samples.args_plain Samples.file_debug_9000 eq_refl)
      as (config & _ & Hhw & _).
    exact (Hhw eq_refl).
  - destruct (X5_meter_follows_the_command_line
                Samples.read_debug_9000 Samples.load_fails Examples.idle_driver
                Samples.args_debug_8080 Samples.file_debug_9000 eq_refl)
      as (config & _ & _ & Hsim).
    exists config. exact (Hsim eq_refl).
Defined.

(** ** The script *)

Section ScriptFacts.
Import Script Terms.
Variable float_repr : Q -> string.
Variable wlm : WavelengthMeter.

Lemma polled_zero (s : Instr) : polled wlm 0 s s.
Proof. unfold polled. destruct (debug wlm); repeat split. Qed.

Lemma polls_log_comm (n : nat) :
  polls_log n ++ poll_calls = poll_calls ++ polls_log n.
Proof.
  induction n as [|n IH]; cbn [polls_log].
  - rewrite app_nil_r. reflexivity.
  - rewrite <- app_assoc, IH. reflexivity.
Qed.

(** One read, then [n] more. *)
Lemma polled_after_one (n : nat) (s s1 s' : Instr) :
  one_poll wlm s s1 -> polled wlm n s1 s' -> polled wlm (S n) s s'.
Proof.
  unfold one_poll, polled. intros [Hst1 H1] [Hst Hn].
  split; [congruence|].
  destruct (debug wlm).
  - destruct H1 as [Hp1 Hl1], Hn as [Hp Hl]. split; [lia|congruence].
  - destruct H1 as [Hp1 Hl1], Hn as [Hp Hl]. split; [congruence|].
    rewrite Hl, Hl1, app_assoc, polls_log_comm. cbn [polls_log].
    rewrite <- app_assoc. reflexivity.
Qed.

(** [n] reads, then one more. *)
Lemma polled_then_one (n : nat) (s s1 s' : Instr) :
  polled wlm n s s1 -> one_poll wlm s1 s' -> polled wlm (S n) s s'.
Proof.
  unfold one_poll, polled. intros [Hst1 Hn] [Hst H1].
  split; [congruence|].
  destruct (debug wlm).
  - destruct H1 as [Hp1 Hl1], Hn as [Hp Hl]. split; [lia|congruence].
  - destruct H1 as [Hp1 Hl1], Hn as [Hp Hl]. split; [congruence|].
    rewrite Hl1, Hl. cbn [polls_log]. rewrite app_assoc. reflexivity.
Qed.

(** The read the script makes for each line. *)
Lemma on_meter_poll (c : Console) :
  exists ws i',
    wavelengths wlm (con_instr c) = (Ok ws, i') /\
    List.length ws = 8%nat /\
    one_poll wlm (con_instr c) i' /\
    on_meter (wavelengths wlm) c
    = (Ok ws, {| con_instr := i'; con_out := con_out c |}).
Proof.
  destruct (wavelengths_returns wlm (con_instr c)) as (ws & i' & Hws & Hlen).
  exists ws, i'. split; [exact Hws|]. split; [exact Hlen|]. split.
  - pose proof (wavelengths_one_poll wlm (con_instr c)) as H.
    rewrite Hws in H. exact H.
  - unfold on_meter. rewrite Hws. reflexivity.
Qed.

(** Position [j] of a read holds a reading of channel [j + 1]. *)
Lemma wavelengths_nth_reading (s s' : Instr) (ws : list num) (j : nat) (x : num) :
  wavelengths wlm s = (Ok ws, s') ->
  nth_error ws j = Some x ->
  reading_of wlm (Z.of_nat j + 1) x.
Proof.
  intros Hws Hx.
  destruct (wavelengths_returns wlm s) as (ws' & s'' & Hws' & Hlen).
  rewrite Hws in Hws'. injection Hws' as <- <-.
  assert (Hj : (j < 8)%nat).
  { rewrite <- Hlen. apply nth_error_Some. rewrite Hx. discriminate. }
  destruct (mapM_nth_error _ _ _ _ _ j (Z.of_nat j) Hws
              (range_nth_error 8 j Hj)) as (y & Hy & Hread).
  rewrite Hx in Hy. injection Hy as <-.
  eexists. exact Hread.
Qed.

(** Python's indexing of a list of eight. *)
Lemma index_of_eight {A} (l : list A) (i : Z) :
  List.length l = 8%nat ->
  (-8 <= i <= 7 ->
   exists x, index l i = Ok x /\ nth_error l (Z.to_nat (i mod 8)) = Some x) /\
  (i < -8 \/ 7 < i ->
   index l i = Raise (IndexError "list index out of range")).
Proof.
  intros Hlen. unfold index. rewrite Hlen. split.
  - intros Hi.
    assert (Hj : (if i <? 0 then i + Z.of_nat 8 else i) = i mod 8).
    { destruct (Z.ltb_spec i 0).
      - apply Z.mod_unique with (q := -1); lia.
      - symmetry. apply Z.mod_small. lia. }
    rewrite Hj.
    pose proof (Z.mod_pos_bound i 8 ltac:(lia)) as Hb.
    destruct (Z.leb_spec 0 (i mod 8)); [|lia].
    destruct (Z.ltb_spec (i mod 8) (Z.of_nat 8)); [|lia].
    cbn [andb].
    destruct (nth_error l (Z.to_nat (i mod 8))) as [x|] eqn:Hn.
    + exists x. split; reflexivity.
    + apply nth_error_None in Hn. lia.
  - intros Hi.
    destruct (Z.ltb_spec i 0).
    + destruct (Z.leb_spec 0 (i + Z.of_nat 8)); [lia|]. reflexivity.
    + destruct (Z.leb_spec 0 i); [|lia].
      destruct (Z.ltb_spec i (Z.of_nat 8)); [lia|]. reflexivity.
Qed.

Let body (i : Z) : M Console unit :=
  w <- on_meter (wavelengths wlm) ;;
  x <- (fun c => (index w i, c)) ;;
  echo (channel_line i x).

(** One turn of the loop with an argument inside [-8 .. 7]. *)
Lemma body_in_range (i : Z) (c : Console) :
  -8 <= i <= 7 ->
  exists line i',
    body i c = (Ok tt, {| con_instr := i'; con_out := con_out c ++ [line] |}) /\
    shows wlm i line /\
    one_poll wlm (con_instr c) i'.
Proof.
  intros Hi.
  destruct (on_meter_poll c) as (ws & i' & Hws & Hlen & Hpoll & Hrun).
  destruct (index_of_eight ws i Hlen) as [Hin _].
  destruct (Hin Hi) as (x & Hidx & Hnth).
  exists (channel_line i x), i'. split; [|split; [|exact Hpoll]].
  - unfold body. rewrite (bind_ok _ _ Hrun). unfold bind. rewrite Hidx.
    reflexivity.
  - exists x. split; [|reflexivity].
    pose proof (wavelengths_nth_reading _ _ _ _ _ Hws Hnth) as Hr.
    rewrite Z2Nat.id in Hr by (apply Z.mod_pos_bound; lia). exact Hr.
Qed.

(** One turn of the loop with an argument outside [-8 .. 7]. *)
Lemma body_out_of_range (i : Z) (c : Console) :
  i < -8 \/ 7 < i ->
  exists i',
    body i c = (Raise (IndexError "list index out of range"),
                {| con_instr := i'; con_out := con_out c |}) /\
    one_poll wlm (con_instr c) i'.
Proof.
  intros Hi.
  destruct (on_meter_poll c) as (ws & i' & Hws & Hlen & Hpoll & Hrun).
  destruct (index_of_eight ws i Hlen) as [_ Hout].
  exists i'. split; [|exact Hpoll].
  unfold body. rewrite (bind_ok _ _ Hrun). unfold bind. rewrite (Hout Hi).
  reflexivity.
Qed.

(** The loop over arguments that are all inside [-8 .. 7]. *)
Lemma loop_in_range (channels : list Z) :
  Forall (fun i => -8 <= i <= 7) channels ->
  forall c,
    exists lines i',
      forM_ channels body c
      = (Ok tt, {| con_instr := i'; con_out := con_out c ++ lines |}) /\
      Forall2 (shows wlm) channels lines /\
      polled wlm (List.length channels) (con_instr c) i'.
Proof.
  induction 1 as [|i channels Hi _ IH]; intros c.
  - exists [], (con_instr c). split; [|split].
    + cbn. rewrite app_nil_r. destruct c; reflexivity.
    + constructor.
    + apply polled_zero.
  - destruct (body_in_range i c Hi) as (line & i1 & Hbody & Hshows & Hpoll).
    destruct (IH {| con_instr := i1; con_out := con_out c ++ [line] |})
      as (lines & i' & Hrest & Hall & Hpolled).
    exists (line :: lines), i'. split; [|split].
    + cbn [forM_]. rewrite (bind_ok _ _ Hbody), Hrest.
      cbn [con_out]. rewrite <- app_assoc. reflexivity.
    + constructor; assumption.
    + cbn [List.length]. exact (polled_after_one _ _ _ _ Hpoll Hpolled).
Qed.

(** The loop up to the first argument outside [-8 .. 7]. *)
Lemma loop_out_of_range (pre post : list Z) (i : Z) :
  Forall (fun i => -8 <= i <= 7) pre ->
  i < -8 \/ 7 < i ->
  forall c,
    exists lines i',
      forM_ (pre ++ i :: post) body c
      = (Raise (IndexError "list index out of range"),
         {| con_instr := i'; con_out := con_out c ++ lines |}) /\
      Forall2 (shows wlm) pre lines /\
      polled wlm (S (List.length pre)) (con_instr c) i'.
Proof.
  intros Hpre Hi. induction Hpre as [|i0 pre Hi0 _ IH]; intros c.
  - destruct (body_out_of_range i c Hi) as (i' & Hbody & Hpoll).
    exists [], i'. split; [|split].
    + cbn [app forM_]. rewrite (bind_raise _ _ Hbody), app_nil_r.
      reflexivity.
    + constructor.
    + exact (polled_after_one _ _ _ _ Hpoll (polled_zero i')).
  - destruct (body_in_range i0 c Hi0) as (line & i1 & Hbody & Hshows & Hpoll).
    destruct (IH {| con_instr := i1; con_out := con_out c ++ [line] |})
      as (lines & i' & Hrest & Hall & Hpolled).
    exists (line :: lines), i'. split; [|split].
    + cbn [app forM_]. rewrite (bind_ok _ _ Hbody), Hrest.
      cbn [con_out]. rewrite <- app_assoc. reflexivity.
    + constructor; assumption.
    + cbn [List.length]. exact (polled_after_one _ _ _ _ Hpoll Hpolled).
Qed.

(** [w[1:6:2]] of a list of eight is its second, fourth and sixth
    element. *)
Lemma slice_of_eight {A} (l : list A) :
  List.length l = 8%nat ->
  exists a b c,
    nth_error l 1 = Some a /\ nth_error l 3 = Some b /\
    nth_error l 5 = Some c /\ slice l 1 6 2 = [a; b; c].
Proof.
  intros Hlen.
  do 9 (destruct l as [|? l]; try discriminate Hlen).
  eexists. eexists. eexists. repeat split.
Qed.

(** The whole script on arguments inside [-8 .. 7]. *)
Lemma main_in_range (channels : list Z) (c : Console) :
  Forall (fun i => -8 <= i <= 7) channels ->
  exists lines x2 x4 x6 i',
    main float_repr wlm channels c
    = (Ok tt,
       {| con_instr := i';
          con_out := con_out c ++ lines ++ [list_str float_repr [x2; x4; x6]] |}) /\
    Forall2 (shows wlm) channels lines /\
    reading_of wlm 2 x2 /\ reading_of wlm 4 x4 /\ reading_of wlm 6 x6 /\
    polled wlm (S (List.length channels)) (con_instr c) i'.
Proof.
  intros Hall.
  destruct (loop_in_range channels Hall c) as (lines & i1 & Hloop & Hshows & Hpolled).
  destruct (on_meter_poll {| con_instr := i1; con_out := con_out c ++ lines |})
    as (ws & i' & Hws & Hlen & Hpoll & Hrun).
  destruct (slice_of_eight ws Hlen) as (x2 & x4 & x6 & H2 & H4 & H6 & Hslice).
  cbn [con_instr] in Hpoll.
  exists lines, x2, x4, x6, i'.
  split; [|split; [exact Hshows|split; [|split; [|split]]]].
  - unfold main. fold body. rewrite (bind_ok _ _ Hloop), (bind_ok _ _ Hrun).
    unfold echo. cbn [con_instr con_out]. rewrite Hslice, <- app_assoc.
    reflexivity.
  - exact (wavelengths_nth_reading _ _ _ 1%nat _ Hws H2).
  - exact (wavelengths_nth_reading _ _ _ 3%nat _ Hws H4).
  - exact (wavelengths_nth_reading _ _ _ 5%nat _ Hws H6).
  - exact (polled_then_one _ _ _ _ Hpolled Hpoll).
Qed.
End ScriptFacts.

Import Script Terms.

(** X6.  Run with channel arguments that are all inside [-8 .. 7], the
    script ends normally and prints one line per argument and a last line.
    The line for the argument [i] is labelled [i] but shows a reading of
    the 1-based channel [i mod 8 + 1]: the channel after the label for
    [0 <= i <= 7], counted from the end for a negative [i].  The last line
    is the list of a reading of channel 2, one of channel 4 and one of
    channel 6. *)
Theorem X6_script_line_shows_the_next_channel
  (float_repr : Q -> string) (wlm : WavelengthMeter)
  (channels : list Z) (c : Console) :
  Forall (fun i => -8 <= i <= 7) channels ->
  exists lines x2 x4 x6,
    fst (main float_repr wlm channels c) = Ok tt /\
    con_out (snd (main float_repr wlm channels c))
    = con_out c ++ lines ++ [list_str float_repr [x2; x4; x6]] /\
    Forall2 (shows wlm) channels lines /\
    reading_of wlm 2 x2 /\ reading_of wlm 4 x4 /\ reading_of wlm 6 x6.
Proof.
  intros Hall.
  destruct (main_in_range float_repr wlm channels c Hall)
    as (lines & x2 & x4 & x6 & i' & Hrun & Hshows & H2 & H4 & H6 & _).
  exists lines, x2, x4, x6. rewrite Hrun.
  repeat (split; [first [reflexivity|assumption]|]). assumption.
Qed.

(** X6, on the default arguments [1 .. 7] and the simulated meter. *)
Lemma X6_witness :
  Forall (fun i => -8 <= i <= 7) default_channels /\
  exists lines x2 x4 x6,
    fst (main Examples.repr4 Examples.sim default_channels Samples.console0)
    = Ok tt /\
    con_out (snd (main Examples.repr4 Examples.sim default_channels
                       Samples.console0))
    = con_out Samples.console0 ++ lines
      ++ [list_str Examples.repr4 [x2; x4; x6]] /\
    Forall2 (shows Examples.sim) default_channels lines /\
    reading_of Examples.sim 2 x2 /\ reading_of Examples.sim 4 x4 /\
    reading_of Examples.sim 6 x6.
Proof.
  assert (H : Forall (fun i => -8 <= i <= 7) default_channels)
    by (repeat constructor; lia).
  split; [exact H|].
  exact (X6_script_line_shows_the_next_channel
           Examples.repr4 Examples.sim default_channels Samples.console0 H).
Defined.

(** X7.  The script reads all eight channels anew for every line: with
    [n] arguments inside [-8 .. 7] the instrument is left as after [n + 1]
    evaluations of [wavelengths] - [8 * (n + 1)] logged [GetWavelengthNum]
    calls on the hardware, [5 * (n + 1)] draws in the simulation. *)
Theorem X7_script_polls_once_per_line
  (float_repr : Q -> string) (wlm : WavelengthMeter)
  (channels : list Z) (c : Console) :
  Forall (fun i => -8 <= i <= 7) channels ->
  polled wlm (S (List.length channels)) (con_instr c)
         (con_instr (snd (main float_repr wlm channels c))) /\
  List.length (polls_log (S (List.length channels)))
  = (8 * S (List.length channels))%nat.
Proof.
  intros Hall.
  destruct (main_in_range float_repr wlm channels c Hall)
    as (lines & x2 & x4 & x6 & i' & Hrun & _ & _ & _ & _ & Hpolled).
  rewrite Hrun. split; [exact Hpolled|].
  generalize (S (List.length channels)) as n.
  induction n as [|n IH]; [reflexivity|].
  cbn [polls_log]. rewrite length_app, IH.
  change (List.length poll_calls) with 8%nat. lia.
Qed.

(** X7, on the default arguments and the hardware meter: 64 driver
    calls. *)
Lemma X7_witness :
  Forall (fun i => -8 <= i <= 7) default_channels /\
  polled Examples.hw 8 (con_instr Samples.console0)
         (con_instr (snd (main Examples.repr4 Examples.hw default_channels
                               Samples.console0))) /\
  List.length (polls_log 8) = 64%nat.
Proof.
  assert (H : Forall (fun i => -8 <= i <= 7) default_channels)
    by (repeat constructor; lia).
  split; [exact H|].
  exact (X7_script_polls_once_per_line
           Examples.repr4 Examples.hw default_channels Samples.console0 H).
Defined.

(** X8.  A channel argument outside [-8 .. 7] ends the script with
    [IndexError]: the lines of the arguments before it are printed, the
    instrument has been read once more for the failing argument, and
    neither the lines of the later arguments nor the last line appear. *)
Theorem X8_script_stops_at_a_wrong_channel
  (float_repr : Q -> string) (wlm : WavelengthMeter)
  (pre post : list Z) (i : Z) (c : Console) :
  Forall (fun i => -8 <= i <= 7) pre ->
  i < -8 \/ 7 < i ->
  exists lines,
    fst (main float_repr wlm (pre ++ i :: post) c)
    = Raise (IndexError "list index out of range") /\
    con_out (snd (main float_repr wlm (pre ++ i :: post) c))
    = con_out c ++ lines /\
    Forall2 (shows wlm) pre lines /\
    polled wlm (S (List.length pre)) (con_instr c)
           (con_instr (snd (main float_repr wlm (pre ++ i :: post) c))).
Proof.
  intros Hpre Hi.
  destruct (loop_out_of_range wlm pre post i Hpre Hi c)
    as (lines & i' & Hloop & Hshows & Hpolled).
  exists lines. unfold main. rewrite (bind_raise _ _ Hloop).
  cbn [fst snd con_out con_instr].
  split; [reflexivity|]. split; [reflexivity|]. split; assumption.
Qed.

(** X8, with the arguments 3, 8 and 1: one line, then the error. *)
Lemma X8_witness :
  exists lines,
    fst (main Examples.repr4 Examples.sim ([3] ++ 8 :: [1]) Samples.console0)
    = Raise (IndexError "list index out of range") /\
    con_out (snd (main Examples.repr4 Examples.sim ([3] ++ 8 :: [1])
                       Samples.console0))
    = con_out Samples.console0 ++ lines /\
    Forall2 (shows Examples.sim) [3] lines /\
    polled Examples.sim 2 (con_instr Samples.console0)
           (con_instr (snd (main Examples.repr4 Examples.sim
                                 ([3] ++ 8 :: [1]) Samples.console0))).
Proof.
  apply (X8_script_stops_at_a_wrong_channel
           Examples.repr4 Examples.sim [3] [1] 8 Samples.console0).
  - repeat constructor; lia.
  - right; lia.
Defined.

(** ** The broadcast in every state *)

(** Either every connection of [l] is open, or there is a first one that
    is not. *)
Lemma first_closing (l : list Handler) (w : World) :
  all_open l w \/
  exists pre c post,
    l = pre ++ c :: post /\ all_open pre w /\ is_closing c w = true.
Proof.
  induction l as [|c l IH].
  - left. intros c [].
  - destruct (is_closing c w) eqn:Hc.
    + right. exists [], c, l.
      split; [reflexivity|]. split; [intros c' []|exact Hc].
    + destruct IH as [Hopen|(pre & c' & post & -> & Hopen & Hc')].
      * left. intros c' [<-|Hin]; [exact Hc|exact (Hopen c' Hin)].
      * right. exists (c :: pre), c', post.
        split; [reflexivity|]. split; [|exact Hc'].
        intros c'' [<-|Hin]; [exact Hc|exact (Hopen c'' Hin)].
Qed.

Lemma all_open_closing (l : list Handler) (w w' : World) :
  closing w' = closing w -> all_open l w -> all_open l w'.
Proof.
  intros Hcl Hopen c Hin. unfold is_closing. rewrite Hcl. exact (Hopen c Hin).
Qed.

Lemma send_data_idle
  (float_repr : Q -> string) (wlmeter : WavelengthMeter) (w : World) :
  clients w = [] -> send_data float_repr wlmeter w = (Ok tt, w).
Proof. intros Hcl. unfold send_data. rewrite Hcl. reflexivity. Qed.

(** X9.  In every state, [send_data] leaves the client list, the
    connections' state and the output streams as they were; it ends
    normally or with [WebSocketClosedError] and with nothing else; the
    frames it writes all carry the same payload and go, in order, to the
    handlers of an initial segment of the client list; and it ends
    normally exactly when every registered connection is open. *)
Theorem X9_send_data_keeps_the_registry
  (float_repr : Q -> string) (wlmeter : WavelengthMeter) (w : World) :
  same_registry w (snd (send_data float_repr wlmeter w)) /\
  (fst (send_data float_repr wlmeter w) = Ok tt \/
   fst (send_data float_repr wlmeter w) = Raise WebSocketClosedError) /\
  (exists payload k,
     (k <= List.length (clients w))%nat /\
     sent (snd (send_data float_repr wlmeter w))
     = sent w ++ frames payload (firstn k (clients w))) /\
  (fst (send_data float_repr wlmeter w) = Ok tt <-> all_open (clients w) w).
Proof.
  destruct (clients w) as [|c0 l0] eqn:Hcl.
  - rewrite (send_data_idle float_repr wlmeter w Hcl).
    split; [repeat split|]. split; [left; reflexivity|]. split.
    + exists EmptyString, 0%nat. split; [lia|]. cbn. rewrite app_nil_r.
      reflexivity.
    + split; [intros _ c []|reflexivity].
  - assert (Hne : clients w <> []) by (rewrite Hcl; discriminate).
    destruct (send_data_polls_once float_repr wlmeter w Hne)
      as (data & i' & _ & _ & _ & Hsend).
    rewrite <- Hcl. rewrite Hsend.
    destruct (first_closing (clients w) w)
      as [Hopen|(pre & c & post & Hsplit & Hopen & Hc)].
    + rewrite (forM_write_all_open (json_dumps float_repr data) (clients w)
                 (with_instr i' w) Hopen).
      split; [repeat split|]. split; [left; reflexivity|]. split.
      * exists (json_dumps float_repr data), (List.length (clients w)).
        split; [lia|]. rewrite firstn_all. reflexivity.
      * split; [intros _; exact Hopen|reflexivity].
    + rewrite Hsplit.
      rewrite (forM_write_stops (json_dumps float_repr data) pre post c
                 (with_instr i' w) Hopen Hc).
      split; [repeat split|]. split; [right; reflexivity|]. split.
      * exists (json_dumps float_repr data), (List.length pre).
        split; [rewrite length_app; cbn; lia|].
        rewrite firstn_app, firstn_all, Nat.sub_diag. cbn [firstn].
        rewrite app_nil_r. reflexivity.
      * split; [discriminate|].
        intros Hall. specialize (Hall c ltac:(apply in_elt)).
        rewrite Hc in Hall. discriminate Hall.
Qed.

(** ** Every request reads the instrument *)

(** X10.  [ApiHandler.get] never raises, and every request - also one that
    is answered 400 for a wrong channel - first reads all eight channels
    and then the switcher mode: on the hardware that is nine driver calls
    per request.  Nothing else of the process state changes, the status is
    200 or 400, and it is 400 exactly for a channel below 0 or above 7. *)
Theorem X10_every_request_reads_the_instrument
  (wlmeter : WavelengthMeter) (channel : option Z) (w : World) :
  exists resp i1 i2 sw,
    ApiHandler_get wlmeter channel w = (Ok resp, with_instr i2 w) /\
    one_poll wlmeter (instr w) i1 /\
    switcher_mode wlmeter i1 = (Ok sw, i2) /\
    (debug wlmeter = false ->
     dll_log i2
     = CallGetSwitcherMode (c_long 0) :: poll_calls ++ dll_log (instr w)) /\
    (status resp = 200 \/ status resp = 400) /\
    (status resp = 400 <->
     exists ch, channel = Some ch /\ (ch < 0 \/ 7 < ch)).
Proof.
  destruct (ApiHandler_get_reads wlmeter w)
    as (ws & sw & i1 & i2 & Hws & Hsw & Hlen & Hget).
  assert (Hpoll : one_poll wlmeter (instr w) i1).
  { pose proof (wavelengths_one_poll wlmeter (instr w)) as H.
    rewrite Hws in H. exact H. }
  assert (Hlog : debug wlmeter = false ->
                 dll_log i2 = CallGetSwitcherMode (c_long 0)
                                :: poll_calls ++ dll_log (instr w)).
  { intros Hd. unfold one_poll in Hpoll. rewrite Hd in Hpoll.
    destruct Hpoll as (_ & _ & Hl).
    unfold switcher_mode in Hsw. rewrite Hd in Hsw. cbn in Hsw.
    injection Hsw as _ <-. cbn [dll_log after_call]. rewrite Hl. reflexivity. }
  rewrite (Hget channel), Hlen.
  destruct channel as [ch|].
  - destruct (Z.geb_spec ch 0) as [Hge|Hlt];
      [destruct (Z.ltb_spec ch (Z.of_nat 8)) as [Hlt8|Hge8]|]; cbn [andb].
    + destruct (index_in_range ws ch) as (x & _ & Hidx); [lia|].
      rewrite Hidx. eexists. exists i1, i2, sw.
      split; [reflexivity|]. split; [exact Hpoll|]. split; [exact Hsw|].
      split; [exact Hlog|]. split; [left; reflexivity|].
      cbn [status write fresh_response]. split; [discriminate|].
      intros (ch' & Heq & Hout). injection Heq as <-. lia.
    + eexists. exists i1, i2, sw.
      split; [reflexivity|]. split; [exact Hpoll|]. split; [exact Hsw|].
      split; [exact Hlog|]. split; [right; reflexivity|].
      split; [intros _|reflexivity]. exists ch. split; [reflexivity|lia].
    + eexists. exists i1, i2, sw.
      split; [reflexivity|]. split; [exact Hpoll|]. split; [exact Hsw|].
      split; [exact Hlog|]. split; [right; reflexivity|].
      split; [intros _|reflexivity]. exists ch. split; [reflexivity|lia].
  - eexists. exists i1, i2, sw.
    split; [reflexivity|]. split; [exact Hpoll|]. split; [exact Hsw|].
    split; [exact Hlog|]. split; [left; reflexivity|].
    cbn [status write fresh_response]. split; [discriminate|].
    intros (ch' & Heq & _). discriminate Heq.
Qed.

(** ** Opening and closing connections *)

Lemma count_occ_snoc (l : list nat) (x h : nat) :
  count_occ Nat.eq_dec (l ++ [x]) h
  = (count_occ Nat.eq_dec l h + if Nat.eqb x h then 1 else 0)%nat.
Proof.
  rewrite count_occ_app. cbn [count_occ].
  destruct (Nat.eq_dec x h) as [->|Hne].
  - rewrite Nat.eqb_refl. reflexivity.
  - destruct (Nat.eqb_spec x h); [contradiction|reflexivity].
Qed.

Lemma count_occ_middle (pre post : list nat) (x h : nat) :
  count_occ Nat.eq_dec (pre ++ x :: post) h
  = (count_occ Nat.eq_dec (pre ++ post) h + if Nat.eqb x h then 1 else 0)%nat.
Proof.
  rewrite !count_occ_app. cbn [count_occ].
  destruct (Nat.eq_dec x h) as [->|Hne].
  - rewrite Nat.eqb_refl. lia.
  - destruct (Nat.eqb_spec x h); [contradiction|lia].
Qed.

(** The first occurrence is the one after a prefix without any. *)
Lemma remove_first_middle (x : nat) (pre post : list nat) :
  ~ In x pre ->
  remove_first Nat.eqb x (pre ++ x :: post) = Some (pre ++ post).
Proof.
  induction pre as [|y pre IH]; intros Hnin; cbn [app remove_first].
  - rewrite Nat.eqb_refl. reflexivity.
  - destruct (Nat.eqb_spec y x) as [->|_].
    + exfalso. apply Hnin. left; reflexivity.
    + rewrite IH; [reflexivity|]. intros Hin. apply Hnin. right; exact Hin.
Qed.

(** X11.  Closing a connection right after it was opened never raises and
    undoes the registration: every handler is in the client list as often
    as before, and when the handler was not registered before, the list is
    exactly the old one. *)
Theorem X11_open_then_close_restores_the_registry
  (self : Handler) (w : World) :
  fst ((WsHandler_open self ;;; WsHandler_on_close self) w) = Ok tt /\
  (forall h,
     count_occ Nat.eq_dec
       (clients (snd ((WsHandler_open self ;;; WsHandler_on_close self) w))) h
     = count_occ Nat.eq_dec (clients w) h) /\
  (~ In self (clients w) ->
   clients (snd ((WsHandler_open self ;;; WsHandler_on_close self) w))
   = clients w).
Proof.
  assert (Hin : In self (clients w ++ [self]))
    by (apply in_or_app; right; left; reflexivity).
  destruct (remove_first_In self (clients w ++ [self]) Hin)
    as (pre & post & Hsplit & Hpre & Hrm).
  assert (Hrun : (WsHandler_open self ;;; WsHandler_on_close self) w
                 = (Ok tt,
                    with_stdout (stdout w ++ ["connection closed"%string])
                                (with_clients (pre ++ post) w))).
  { unfold bind at 1, WsHandler_open.
    unfold WsHandler_on_close, bind. cbn [clients with_clients]. rewrite Hrm.
    reflexivity. }
  rewrite Hrun. cbn [fst snd clients with_stdout with_clients].
  split; [reflexivity|]. split.
  - intros h.
    pose proof (count_occ_snoc (clients w) self h) as H1.
    pose proof (count_occ_middle pre post self h) as H2.
    pose proof (f_equal (fun l => count_occ Nat.eq_dec l h) Hsplit) as H3.
    cbv beta in H3. unfold Handler in *. lia.
  - intros Hnin.
    pose proof (remove_first_middle self (clients w) [] Hnin) as Hrm'.
    pose proof (eq_trans (eq_sym Hrm) Hrm') as E.
    injection E as ->. apply app_nil_r.
Qed.

(** X12.  While a handler whose connection is closing is registered the
    broadcast fails; its [on_close] takes it out of the client list, and
    the broadcast that follows ends normally and serves every other
    registered handler, those registered after it included. *)
Theorem X12_on_close_lets_the_broadcast_resume
  (float_repr : Q -> string) (wlmeter : WavelengthMeter) (w : World)
  (pre post : list Handler) (self : Handler) :
  clients w = pre ++ self :: post ->
  ~ In self pre ->
  all_open pre w -> all_open post w ->
  is_closing self w = true ->
  pre ++ post <> [] ->
  fst (send_data float_repr wlmeter w) = Raise WebSocketClosedError /\
  exists data i',
    wavelengths wlmeter (instr w) = (Ok data, i') /\
    (WsHandler_on_close self ;;; send_data float_repr wlmeter) w
    = (Ok tt,
       with_sent (sent w ++ frames (json_dumps float_repr data) (pre ++ post))
         (with_instr i'
            (with_stdout (stdout w ++ ["connection closed"%string])
                         (with_clients (pre ++ post) w)))).
Proof.
  intros Hcl Hnin Hpre Hpost Hself Hothers.
  split.
  - assert (Hne : clients w <> []) by (rewrite Hcl; destruct pre; discriminate).
    destruct (send_data_polls_once float_repr wlmeter w Hne)
      as (data & i' & _ & _ & _ & Hsend).
    rewrite Hsend, Hcl.
    rewrite (forM_write_stops (json_dumps float_repr data) pre post self
               (with_instr i' w) Hpre Hself).
    reflexivity.
  - set (w1 := with_stdout (stdout w ++ ["connection closed"%string])
                           (with_clients (pre ++ post) w)).
    assert (Hclose : WsHandler_on_close self w = (Ok tt, w1)).
    { unfold WsHandler_on_close, bind. rewrite Hcl. unfold Handler in *.
      rewrite (remove_first_middle self pre post Hnin). reflexivity. }
    assert (Hne : clients w1 <> []) by exact Hothers.
    destruct (send_data_polls_once float_repr wlmeter w1 Hne)
      as (data & i' & Hws & _ & _ & Hsend).
    exists data, i'. split; [exact Hws|].
    rewrite (bind_ok _ _ Hclose), Hsend.
    apply (forM_write_all_open (json_dumps float_repr data) (pre ++ post)
             (with_instr i' w1)).
    intros c Hin. apply in_app_or in Hin.
    destruct Hin as [Hin|Hin]; [exact (Hpre c Hin)|exact (Hpost c Hin)].
Qed.

(** X12, with the connection of the second of three browsers closing. *)
Lemma X12_witness :
  fst (send_data Examples.repr4 Examples.sim Examples.world_second_closing)
  = Raise WebSocketClosedError /\
  exists data i',
    wavelengths Examples.sim (instr Examples.world_second_closing)
    = (Ok data, i') /\
    (WsHandler_on_close 2%nat ;;; send_data Examples.repr4 Examples.sim)
      Examples.world_second_closing
    = (Ok tt,
       with_sent (sent Examples.world_second_closing
                  ++ frames (json_dumps Examples.repr4 data)
                            ([1%nat] ++ [3%nat]))
         (with_instr i'
            (with_stdout (stdout Examples.world_second_closing
                          ++ ["connection closed"%string])
               (with_clients ([1%nat] ++ [3%nat])
                             Examples.world_second_closing)))).
Proof.
  apply (X12_on_close_lets_the_broadcast_resume
           Examples.repr4 Examples.sim Examples.world_second_closing
           [1%nat] [3%nat] 2%nat).
  - reflexivity.
  - intros [H|[]]; discriminate H.
  - intros c [<-|[]]; reflexivity.
  - intros c [<-|[]]; reflexivity.
  - reflexivity.
  - discriminate.
Defined.

(** ** Timer firings, one after the other *)

Lemma frames_to_app (c : Handler) (a b : list (Handler * string)) :
  frames_to c (a ++ b) = (frames_to c a + frames_to c b)%nat.
Proof. unfold frames_to. rewrite filter_app, length_app. reflexivity. Qed.

Lemma frames_to_frames (c : Handler) (payload : string) (l : list Handler) :
  frames_to c (frames payload l) = count_occ Nat.eq_dec l c.
Proof.
  unfold frames_to, frames.
  induction l as [|h l IH]; [reflexivity|].
  cbn [map filter fst count_occ].
  destruct (Nat.eq_dec h c) as [->|Hne].
  - rewrite Nat.eqb_refl. cbn [List.length]. rewrite IH. reflexivity.
  - destruct (Nat.eqb_spec h c); [contradiction|exact IH].
Qed.

(** One firing with every registered connection open. *)
Lemma tick_all_open
  (float_repr : Q -> string) (wlmeter : WavelengthMeter) (w : World) :
  clients w <> [] ->
  all_open (clients w) w ->
  exists data i',
    one_poll wlmeter (instr w) i' /\
    PeriodicCallback_run float_repr wlmeter w
    = (Ok tt,
       with_sent (sent w ++ frames (json_dumps float_repr data) (clients w))
                 (with_instr i' w)).
Proof.
  intros Hne Hopen.
  destruct (send_data_polls_once float_repr wlmeter w Hne)
    as (data & i' & _ & _ & Hpoll & Hsend).
  exists data, i'. split; [exact Hpoll|].
  unfold PeriodicCallback_run, try_except. rewrite Hsend.
  rewrite (forM_write_all_open (json_dumps float_repr data) (clients w)
             (with_instr i' w) Hopen).
  reflexivity.
Qed.

(** One firing with a first registered connection that is closing. *)
Lemma tick_closing
  (float_repr : Q -> string) (wlmeter : WavelengthMeter) (w : World)
  (pre post : list Handler) (c : Handler) :
  clients w = pre ++ c :: post ->
  all_open pre w ->
  is_closing c w = true ->
  exists data i',
    one_poll wlmeter (instr w) i' /\
    PeriodicCallback_run float_repr wlmeter w
    = (Ok tt,
       with_app_log (app_log w ++ [WebSocketClosedError])
         (with_sent (sent w ++ frames (json_dumps float_repr data) pre)
                    (with_instr i' w))).
Proof.
  intros Hcl Hopen Hc.
  assert (Hne : clients w <> []) by (rewrite Hcl; destruct pre; discriminate).
  destruct (send_data_polls_once float_repr wlmeter w Hne)
    as (data & i' & _ & _ & Hpoll & Hsend).
  exists data, i'. split; [exact Hpoll|].
  unfold PeriodicCallback_run, try_except. rewrite Hsend, Hcl.
  rewrite (forM_write_stops (json_dumps float_repr data) pre post c
             (with_instr i' w) Hopen Hc).
  reflexivity.
Qed.

(** X13.  With at least one handler registered and every registered
    connection open, [n] firings of the timer never raise, read the
    instrument [n] times, leave the registry as it was and write [n]
    frames to each registered handler (as many times [n] as it is
    registered). *)
Theorem X13_n_ticks_deliver_n_frames_each
  (float_repr : Q -> string) (wlmeter : WavelengthMeter) (n : nat) (w : World) :
  clients w <> [] ->
  all_open (clients w) w ->
  exists w',
    ticks float_repr wlmeter n w = (Ok tt, w') /\
    same_registry w w' /\
    polled wlmeter n (instr w) (instr w') /\
    forall c,
      frames_to c (sent w')
      = (frames_to c (sent w) + n * count_occ Nat.eq_dec (clients w) c)%nat.
Proof.
  revert w. induction n as [|n IH]; intros w Hne Hopen.
  - exists w. split; [reflexivity|]. split; [repeat split|].
    split; [apply polled_zero|]. intros c. lia.
  - destruct (tick_all_open float_repr wlmeter w Hne Hopen)
      as (data & i' & Hpoll & Htick).
    set (w1 := with_sent (sent w ++ frames (json_dumps float_repr data) (clients w))
                         (with_instr i' w)) in *.
    destruct (IH w1 Hne (all_open_closing _ w w1 eq_refl Hopen))
      as (w' & Hrun & (Hcl & Hclosing & Hout & Hlog) & Hpolled & Hframes).
    exists w'. split; [|split; [|split]].
    + cbn [ticks]. rewrite (bind_ok _ _ Htick). exact Hrun.
    + repeat split; assumption.
    + exact (polled_after_one wlmeter n _ _ _ Hpoll Hpolled).
    + intros c. rewrite (Hframes c). subst w1. cbn [sent with_sent clients with_instr].
      rewrite frames_to_app, frames_to_frames. lia.
Qed.

(** X13, ten firings with three browsers connected. *)
Lemma X13_witness :
  exists w',
    ticks Examples.repr4 Examples.sim 10 Examples.world_three = (Ok tt, w') /\
    same_registry Examples.world_three w' /\
    polled Examples.sim 10 (instr Examples.world_three) (instr w') /\
    forall c,
      frames_to c (sent w')
      = (frames_to c (sent Examples.world_three)
         + 10 * count_occ Nat.eq_dec (clients Examples.world_three) c)%nat.
Proof.
  apply (X13_n_ticks_deliver_n_frames_each
           Examples.repr4 Examples.sim 10 Examples.world_three).
  - discriminate.
  - intros c _. reflexivity.
Defined.

(** X14.  While the first registered handler whose connection is closing
    stays in the client list, every firing of the timer still reads the
    instrument and logs one [WebSocketClosedError], and only the handlers
    registered before it are served: after [n] firings a handler that is
    not among those has not received a single frame. *)
Theorem X14_a_closing_connection_starves_the_later_ones
  (float_repr : Q -> string) (wlmeter : WavelengthMeter) (n : nat) (w : World)
  (pre post : list Handler) (c : Handler) :
  clients w = pre ++ c :: post ->
  all_open pre w ->
  is_closing c w = true ->
  exists w',
    ticks float_repr wlmeter n w = (Ok tt, w') /\
    clients w' = clients w /\
    polled wlmeter n (instr w) (instr w') /\
    app_log w' = app_log w ++ repeat WebSocketClosedError n /\
    forall h,
      frames_to h (sent w')
      = (frames_to h (sent w) + n * count_occ Nat.eq_dec pre h)%nat.
Proof.
  revert w. induction n as [|n IH]; intros w Hcl Hopen Hc.
  - exists w. split; [reflexivity|]. split; [reflexivity|].
    split; [apply polled_zero|]. split; [cbn; rewrite app_nil_r; reflexivity|].
    intros h. lia.
  - destruct (tick_closing float_repr wlmeter w pre post c Hcl Hopen Hc)
      as (data & i' & Hpoll & Htick).
    set (w1 := with_app_log (app_log w ++ [WebSocketClosedError])
                 (with_sent (sent w ++ frames (json_dumps float_repr data) pre)
                            (with_instr i' w))) in *.
    destruct (IH w1 Hcl (all_open_closing _ w w1 eq_refl Hopen) Hc)
      as (w' & Hrun & Hcl' & Hpolled & Hlog & Hframes).
    exists w'. split; [|split; [|split; [|split]]].
    + cbn [ticks]. rewrite (bind_ok _ _ Htick). exact Hrun.
    + exact Hcl'.
    + exact (polled_after_one wlmeter n _ _ _ Hpoll Hpolled).
    + rewrite Hlog. subst w1. cbn [app_log with_app_log repeat].
      rewrite <- app_assoc. reflexivity.
    + intros h. rewrite (Hframes h). subst w1.
      cbn [sent with_sent with_app_log with_instr].
      rewrite frames_to_app, frames_to_frames. lia.
Qed.

(** X14, ten firings with the connection of the second of three browsers
    closing: the third browser gets nothing. *)
Lemma X14_witness :
  exists w',
    ticks Examples.repr4 Examples.sim 10 Examples.world_second_closing
    = (Ok tt, w') /\
    clients w' = clients Examples.world_second_closing /\
    polled Examples.sim 10 (instr Examples.world_second_closing) (instr w') /\
    app_log w'
    = app_log Examples.world_second_closing
      ++ repeat WebSocketClosedError 10 /\
    forall h,
      frames_to h (sent w')
      = (frames_to h (sent Examples.world_second_closing)
         + 10 * count_occ Nat.eq_dec [1%nat] h)%nat.
Proof.
  apply (X14_a_closing_connection_starves_the_later_ones
           Examples.repr4 Examples.sim 10 Examples.world_second_closing
           [1%nat] [3%nat] 2%nat).
  - reflexivity.
  - intros c [<-|[]]; reflexivity.
  - reflexivity.
Defined.

(** ** The simulated meter *)

(** X15.  A simulated meter never uses the driver: with any other driver
    behind it every method returns the same value and leaves the same
    state, no driver call is logged, and the switcher mode reads 0 whatever
    was set before. *)
Theorem X15_simulated_meter_never_uses_the_driver
  (self : WavelengthMeter) (d : Driver) (s : Instr) (channel idx mode : Z) :
  debug self = true ->
  (GetWavelength (with_dll d self) channel s = GetWavelength self channel s /\
   GetFrequency (with_dll d self) channel s = GetFrequency self channel s /\
   GetPatternData (with_dll d self) channel idx s
   = GetPatternData self channel idx s /\
   wavelengths (with_dll d self) s = wavelengths self s /\
   switcher_mode (with_dll d self) s = switcher_mode self s) /\
  (dll_log (snd (GetWavelength self channel s)) = dll_log s /\
   dll_log (snd (GetFrequency self channel s)) = dll_log s /\
   dll_log (snd (GetPatternData self channel idx s)) = dll_log s /\
   dll_log (snd (wavelengths self s)) = dll_log s) /\
  (set_switcher_mode self mode ;;; switcher_mode self) s = (Ok 0, s).
Proof.
  intros Hd. split; [|split].
  - unfold wavelengths, GetWavelength, GetFrequency, GetPatternData,
      switcher_mode.
    cbn [debug with_dll]. rewrite Hd. repeat split.
  - split; [|split; [|split]].
    + unfold GetWavelength. rewrite Hd. cbn [negb].
      destruct (channel >? 5); [reflexivity|].
      unfold bind, of_res. destruct (index base_table (channel - 1));
        reflexivity.
    + unfold GetFrequency. rewrite Hd. reflexivity.
    + unfold GetPatternData. rewrite Hd. reflexivity.
    + unfold wavelengths, GetWavelength. rewrite Hd. reflexivity.
  - unfold set_switcher_mode, switcher_mode. rewrite Hd. reflexivity.
Qed.

(** X15, on the simulated meter with the laboratory driver put behind
    it. *)
Lemma X15_witness :
  (GetWavelength (with_dll Examples.lab_driver Examples.sim) 3 Examples.instr0
   = GetWavelength Examples.sim 3 Examples.instr0 /\
   GetFrequency (with_dll Examples.lab_driver Examples.sim) 3 Examples.instr0
   = GetFrequency Examples.sim 3 Examples.instr0 /\
   GetPatternData (with_dll Examples.lab_driver Examples.sim) 3 1 Examples.instr0
   = GetPatternData Examples.sim 3 1 Examples.instr0 /\
   wavelengths (with_dll Examples.lab_driver Examples.sim) Examples.instr0
   = wavelengths Examples.sim Examples.instr0 /\
   switcher_mode (with_dll Examples.lab_driver Examples.sim) Examples.instr0
   = switcher_mode Examples.sim Examples.instr0) /\
  (dll_log (snd (GetWavelength Examples.sim 3 Examples.instr0))
   = dll_log Examples.instr0 /\
   dll_log (snd (GetFrequency Examples.sim 3 Examples.instr0))
   = dll_log Examples.instr0 /\
   dll_log (snd (GetPatternData Examples.sim 3 1 Examples.instr0))
   = dll_log Examples.instr0 /\
   dll_log (snd (wavelengths Examples.sim Examples.instr0))
   = dll_log Examples.instr0) /\
  (set_switcher_mode Examples.sim 7 ;;; switcher_mode Examples.sim)
    Examples.instr0
  = (Ok 0, Examples.instr0).
Proof.
  apply (X15_simulated_meter_never_uses_the_driver
           Examples.sim Examples.lab_driver Examples.instr0 3 1 7).
  reflexivity.
Defined.



